(** * join-monster: the compile-and-fetch pipeline of [src/index.js]

    A shallow embedding of [joinMonster], [compileSqlAST], [getNode],
    [handleUserDbCall] and [validate].  JavaScript values are a small
    inductive universe, exceptions are an explicit [Throw], the two objects
    the compilation mutates (the alias namespace and the SQL AST) live in a
    store of references, and every call that leaves [index.js] is recorded in
    a trace so that ordering properties can be stated. *)

From Stdlib Require Import ZArith String Ascii List Bool Lia.
From stdpp Require Import gmap strings pretty.
Import ListNotations.

Local Open Scope list_scope.
Local Open Scope string_scope.
Set Warnings "-register-all".

(** ** JavaScript values *)

(** Data values: the primitives, arrays, plain objects and [Error]
    instances.  Arrays and errors are objects and carry their own named
    properties.  Values hold no callable property (functions are modelled
    where they occur: generators, the transport, the collaborators), no
    getter, and nothing is inherited from a patched prototype.  Numbers are
    the integers that print in plain decimal, plus [NaN]. *)
Inductive value : Type :=
| VUndefined
| VNull
| VBool (b : bool)
| VNum (n : Z)
| VNaN
| VStr (s : string)
| VArray (elems : list value) (props : list (string * value))
| VObject (props : list (string * value))
| VError (name message : string) (props : list (string * value)).

(** The outcome of evaluating an expression: a value, or a thrown value. *)
Inductive result (A : Type) : Type :=
| Ok (a : A)
| Throw (e : value).
Arguments Ok {A} a.
Arguments Throw {A} e.

Definition TypeError (message : string) : value := VError "TypeError" message [].

(** [ToBoolean]. *)
Definition truthy (v : value) : bool :=
  match v with
  | VUndefined | VNull | VNaN => false
  | VBool b => b
  | VNum n => negb (n =? 0)%Z
  | VStr s => negb (String.eqb s "")
  | VArray _ _ | VObject _ | VError _ _ _ => true
  end.

(** [a || b] on values. *)
Definition js_or (a b : value) : value := if truthy a then a else b.

Fixpoint lookup_prop (props : list (string * value)) (key : string) : value :=
  match props with
  | [] => VUndefined
  | (k, v) :: rest => if String.eqb k key then v else lookup_prop rest key
  end.

Fixpoint assign_prop (props : list (string * value)) (key : string) (v : value)
  : list (string * value) :=
  match props with
  | [] => [(key, v)]
  | (k, old) :: rest =>
      if String.eqb k key then (k, v) :: rest else (k, old) :: assign_prop rest key v
  end.

(** The named (non-index) property [key] of a value other than [undefined]
    and [null]: primitives have no data property except a string's [length]. *)
Definition read (v : value) (key : string) : value :=
  match v with
  | VUndefined | VNull | VBool _ | VNum _ | VNaN => VUndefined
  | VStr s =>
      if String.eqb key "length" then VNum (Z.of_nat (String.length s)) else VUndefined
  | VArray elems props =>
      if String.eqb key "length" then VNum (Z.of_nat (List.length elems))
      else lookup_prop props key
  | VObject props => lookup_prop props key
  | VError name message props =>
      if String.eqb key "name" then VStr name
      else if String.eqb key "message" then VStr message
      else lookup_prop props key
  end.

Definition nullish (v : value) : bool :=
  match v with
  | VUndefined | VNull => true
  | _ => false
  end.

(** [v.key]: reading a property of [undefined] or [null] throws. *)
Definition get_prop (v : value) (key : string) : result value :=
  if nullish v then Throw (TypeError ("Cannot read property " ++ key))
  else Ok (read v key).

(** [v[0]]. *)
Definition get_index0 (v : value) : result value :=
  match v with
  | VUndefined | VNull => Throw (TypeError "Cannot read property 0")
  | VStr (String c _) => Ok (VStr (String c EmptyString))
  | VArray (x :: _) _ => Ok x
  | VObject props | VError _ _ props => Ok (lookup_prop props "0")
  | _ => Ok VUndefined
  end.

(** [obj.key = v] in strict mode (the file is an ES module): creating a
    property on a primitive throws. *)
Definition set_prop (obj : value) (key : string) (v : value) : result value :=
  match obj with
  | VArray elems props => Ok (VArray elems (assign_prop props key v))
  | VObject props => Ok (VObject (assign_prop props key v))
  | VError name message props => Ok (VError name message (assign_prop props key v))
  | _ => Throw (TypeError ("Cannot create property " ++ key))
  end.

(** [ToString], as used by [string + v]. *)
Fixpoint to_string (v : value) : string :=
  match v with
  | VUndefined => "undefined"
  | VNull => "null"
  | VBool true => "true"
  | VBool false => "false"
  | VNum n => pretty n
  | VNaN => "NaN"
  | VStr s => s
  | VArray elems _ =>
      (fix join (l : list value) : string :=
         match l with
         | [] => ""
         | x :: rest =>
             let shown :=
               match x with
               | VUndefined | VNull => ""
               | _ => to_string x
               end in
             match rest with
             | [] => shown
             | _ :: _ => shown ++ "," ++ join rest
             end
         end) elems
  | VObject _ => "[object Object]"
  | VError name message _ =>
      if String.eqb name "" then message
      else if String.eqb message "" then name
      else name ++ ": " ++ message
  end.

Definition lower_ascii (c : ascii) : ascii :=
  let n := nat_of_ascii c in
  if ((65 <=? n) && (n <=? 90))%nat then ascii_of_nat (n + 32) else c.

Fixpoint lower_string (s : string) : string :=
  match s with
  | EmptyString => EmptyString
  | String c rest => String (lower_ascii c) (lower_string rest)
  end.

(** [v.toLowerCase()]: only strings have the method. *)
Definition toLowerCase (v : value) : result value :=
  match v with
  | VStr s => Ok (VStr (lower_string s))
  | VUndefined | VNull => Throw (TypeError "Cannot read property toLowerCase")
  | _ => Throw (TypeError "toLowerCase is not a function")
  end.

(** [v.slice(0, 8)]: arrays and strings have the method. *)
Definition slice_0_8 (v : value) : result value :=
  match v with
  | VArray elems _ => Ok (VArray (firstn 8 elems) [])
  | VStr s => Ok (VStr (substring 0 8 s))
  | VUndefined | VNull => Throw (TypeError "Cannot read property slice")
  | _ => Throw (TypeError "slice is not a function")
  end.

Definition is_array (v : value) : bool :=
  match v with
  | VArray _ _ => true
  | _ => false
  end.

Definition is_object (v : value) : bool :=
  match v with
  | VArray _ _ | VObject _ | VError _ _ _ => true
  | _ => false
  end.

(** ** The store, the trace and the effect monad *)

(** References to the two kinds of object a compilation mutates. *)
Definition loc := positive.

Record store (Ast Ns : Type) : Type := {
  asts : gmap loc Ast;
  namespaces : gmap loc Ns
}.
Arguments asts {Ast Ns} s.
Arguments namespaces {Ast Ns} s.

(** One entry per call that leaves [index.js] (and per [validate] call),
    recorded when the call is made, in program order. *)
Inductive event : Type :=
| EvDebug (label : string)
| EvQueryASTToSqlAST
| EvNewNamespace (namespace : loc)
| EvNewObject (sqlAST : loc)
| EvGetGraphQLType (sqlAST namespace : loc)
| EvPrune (sqlAST namespace : loc)
| EvRequire (path : string)
| EvStringify (path : string) (sqlAST : loc)
| EvDefineShape (sqlAST : loc)
| EvDbCall (sql : value) (callback_mode : bool)
| EvValidate (rows : value)
| EvNest (rows shapeDefinition : value)
| EvPostProcess (nested : value) (sqlAST : loc)
| EvUncaught (e : value).

Definition M (Ast Ns : Type) (A : Type) : Type :=
  store Ast Ns -> result A * store Ast Ns * list event.

Section Monad.
Context {Ast Ns : Type}.
Local Abbreviation M := (M Ast Ns).

Definition ret {A} (a : A) : M A := fun s => (Ok a, s, []).

Definition throw {A} (e : value) : M A := fun s => (Throw e, s, []).

Definition bind {A B} (c : M A) (k : A -> M B) : M B := fun s =>
  match c s with
  | (Ok a, s1, t1) => let '(r, s2, t2) := k a s1 in (r, s2, (t1 ++ t2)%list)
  | (Throw e, s1, t1) => (Throw e, s1, t1)
  end.

Definition tell (ev : event) : M unit := fun s => (Ok tt, s, [ev]).

(** A pure computation that may throw. *)
Definition lift {A} (r : result A) : M A := fun s => (r, s, []).

(** A call to a collaborator acting on the store. *)
Definition call {A} (ev : event) (f : store Ast Ns -> result A * store Ast Ns) : M A :=
  fun s => let '(r, s1) := f s in (r, s1, [ev]).

(** [debug(emphasize(label), ...)]. *)
Definition debug (label : string) : M unit := tell (EvDebug label).
End Monad.

Notation "x <- c ;; k" := (bind c (fun x => k))
  (at level 100, c at next level, right associativity).
Notation "c ;;; k" := (bind c (fun _ => k))
  (at level 100, right associativity).

(** The trace of a run, and its result. *)
Definition trace_of {Ast Ns A} (x : result A * store Ast Ns * list event) : list event :=
  snd x.
Definition result_of {Ast Ns A} (x : result A * store Ast Ns * list event) : result A :=
  fst (fst x).
Definition store_of {Ast Ns A} (x : result A * store Ast Ns * list event) : store Ast Ns :=
  snd (fst x).

(** ** Inputs of the pipeline *)

Record Options : Type := {
  minify : value;
  dialect : value
}.

(** [options = {}], the default of the last parameter. *)
Definition no_options : Options := {| minify := VUndefined; dialect := VUndefined |}.

(** A [where] generator: [(tableAlias, args, context) -> condition]. *)
Definition WhereFn : Type := value -> value -> value -> result value.

(** The part of [resolveInfo] that [index.js] reads itself. *)
Record ResolveInfo : Type := {
  schema_getType : string -> value;
  fieldNodes : value;
  fieldASTs : value;
  fragments : value;
  variables : value
}.

(** The object literal [{ _fields: { node: { type, name, where } } }]. *)
Record NodeField : Type := {
  type : value;
  name : value;
  where_ : option WhereFn
}.
Record ParentNode : Type := {
  fields_node : NodeField
}.

(** How a thenable handed back by the transport eventually settles. *)
Inductive settlement : Type :=
| Fulfils (rows : value)
| Rejects (e : value)
| NeverSettles.

Inductive timing : Type := Sync | Async.

(** What the transport does when called as [dbCall(sql, done)]: it throws
    before calling [done], calls [done(err, rows)] (during the call or
    later), or never calls it.  An exception leaving [done] is not caught by
    the transport. *)
Inductive callback_behaviour : Type :=
| CbThrows (e : value)
| CbDone (when : timing) (err rows : value)
| CbSilent.

(** What the transport does when called as [dbCall(sql)]: it throws, returns
    a thenable, or returns a plain value. *)
Inductive return_behaviour : Type :=
| RetThrows (e : value)
| RetThenable (p : settlement)
| RetPlain (v : value).

(** The user's transport function: its declared parameter count and its
    behaviour under the two ways [handleUserDbCall] calls it. *)
Record DbCall : Type := {
  db_length : nat;
  with_callback : value -> callback_behaviour;
  without_callback : value -> return_behaviour
}.

(** The state of the promise the pipeline returns, once everything that
    will happen has happened. *)
Inductive promise : Type :=
| Resolved (v : value)
| Rejected (e : value)
| Pending.

(** ** The collaborators of [index.js] *)

(** A stringifier: [(sqlAST, context) -> sql]. *)
Definition Stringifier (Ast Ns : Type) : Type :=
  loc -> value -> store Ast Ns -> result value * store Ast Ns.

(** What [require] returns: a module and its [default] export, callable or
    not. *)
Record ModuleExports (Ast Ns : Type) : Type := {
  default_export : option (Stringifier Ast Ns)
}.
Arguments default_export {Ast Ns} m.

(** The modules [index.js] imports, none of which is part of [index.js]:
    they are parameters of the development.  Those that receive the SQL AST
    or the namespace receive a reference and act on the store. *)
Record Env (Ast Ns : Type) : Type := {
  (** [queryASTToSqlAST(resolveInfo, options)] returns the SQL AST. *)
  queryASTToSqlAST : ResolveInfo -> Options -> store Ast Ns -> result loc * store Ast Ns;
  (** [getGraphQLType(fieldNode, parent, sqlAST, fragments, variables, namespace, options)]. *)
  getGraphQLType : value -> ParentNode -> loc -> value -> value -> loc -> Options ->
                   store Ast Ns -> result unit * store Ast Ns;
  (** [pruneDuplicateSqlDeps(sqlAST, namespace)]. *)
  pruneDuplicateSqlDeps : loc -> loc -> store Ast Ns -> result unit * store Ast Ns;
  (** The initial state of [new AliasNamespace(minify)]. *)
  AliasNamespace : value -> Ns;
  (** The object [{}]. *)
  empty_object : Ast;
  (** [require(path)]; [None] when the module cannot be found. *)
  require : string -> option (ModuleExports Ast Ns);
  (** [defineObjectShape(sqlAST)]. *)
  defineObjectShape : loc -> store Ast Ns -> result value * store Ast Ns;
  (** [nest(rows, shapeDefinition)] of nesthydrationjs. *)
  nest : value -> value -> result value;
  (** [postProcess(nested, sqlAST)]. *)
  postProcess : value -> loc -> store Ast Ns -> result value * store Ast Ns;
  (** [util.inspect(v, { depth: 3 })]. *)
  util_inspect : value -> string
}.
Arguments queryASTToSqlAST {Ast Ns} e.
Arguments getGraphQLType {Ast Ns} e.
Arguments pruneDuplicateSqlDeps {Ast Ns} e.
Arguments AliasNamespace {Ast Ns} e.
Arguments empty_object {Ast Ns} e.
Arguments require {Ast Ns} e.
Arguments defineObjectShape {Ast Ns} e.
Arguments nest {Ast Ns} e.
Arguments postProcess {Ast Ns} e.
Arguments util_inspect {Ast Ns} e.

(** What [compileSqlAST] returns: [{ sql, shapeDefinition }]. *)
Record Compiled : Type := {
  sql : value;
  shapeDefinition : value
}.


Definition stringifier_path (dialect : value) : string :=
  "./stringifiers/" ++ to_string dialect.

Definition module_not_found (path : string) : value :=
  VError "Error" ("Cannot find module " ++ path) [("code", VStr "MODULE_NOT_FOUND")].

Definition dquote : string := String "034"%char EmptyString.

(** ** The functions of [index.js] *)

Section Pipeline.
Context {Ast Ns : Type} (E : Env Ast Ns).
Local Abbreviation M := (M Ast Ns).

(** The error [validate] throws. *)
Definition validate_error (rows : value) : value :=
  VError "Error"
    (dquote ++ "dbCall" ++ dquote ++
     " function must return/resolve an array of objects where each object is a row from the result set. Instead got "
     ++ util_inspect E rows) [].

(** [validate(rows)]. *)
Definition validate (rows : value) : result value :=
  if is_array rows then Ok rows
  else if truthy rows && truthy (read rows "rows") then Ok (read rows "rows")
  else Throw (validate_error rows).

(** [new AliasNamespace(options.minify)]. *)
Definition new_AliasNamespace (minify : value) : M loc := fun s =>
  let l := fresh (dom (namespaces s)) in
  (Ok l,
   {| asts := asts s; namespaces := <[l := AliasNamespace E minify]> (namespaces s) |},
   [EvNewNamespace l]).

(** [{}]. *)
Definition new_object : M loc := fun s =>
  let l := fresh (dom (asts s)) in
  (Ok l,
   {| asts := <[l := empty_object E]> (asts s); namespaces := namespaces s |},
   [EvNewObject l]).

(** [require(path).default]. *)
Definition require_default (path : string) : M (option (Stringifier Ast Ns)) :=
  tell (EvRequire path) ;;;
  match require E path with
  | Some m => ret (default_export m)
  | None => throw (module_not_found path)
  end.

Definition compileSqlAST (sqlAST : loc) (context : value) (options : Options)
  : M Compiled :=
  debug "SQL_AST" ;;;
  let dialect := js_or (dialect options) (VStr "standard") in
  stringify <- require_default (stringifier_path dialect) ;;
  sql <- match stringify with
         | Some f => call (EvStringify (stringifier_path dialect) sqlAST) (f sqlAST context)
         | None => throw (TypeError "stringify is not a function")
         end ;;
  debug "SQL" ;;;
  shapeDefinition <- call (EvDefineShape sqlAST) (defineObjectShape E sqlAST) ;;
  debug "SHAPE_DEFINITION" ;;;
  ret {| sql := sql; shapeDefinition := shapeDefinition |}.

(** The statements both asynchronous branches of [handleUserDbCall] run on
    the rows they receive. *)
Definition hydrate (label : string) (rows shapeDefinition : value) (sqlAST : loc)
  : M value :=
  tell (EvValidate rows) ;;;
  rows <- lift (validate rows) ;;
  _ <- lift (slice_0_8 rows) ;;
  debug label ;;;
  len <- lift (get_prop rows "length") ;;
  debug (to_string len ++ " rows...") ;;;
  nested <- call (EvNest rows shapeDefinition) (fun s => (nest E rows shapeDefinition, s)) ;;
  call (EvPostProcess nested sqlAST) (postProcess E nested sqlAST).

(** A callback run by a promise: a throw becomes a rejection. *)
Definition settle (body : M value) : M promise := fun s =>
  match body s with
  | (Ok v, s1, t) => (Ok (Resolved v), s1, t)
  | (Throw e, s1, t) => (Ok (Rejected e), s1, t)
  end.

(** The [done] callback called outside the promise executor: a throw is
    nobody's to catch and the promise stays pending. *)
Definition detached (body : M value) : M promise := fun s =>
  match body s with
  | (Ok v, s1, t) => (Ok (Resolved v), s1, t)
  | (Throw e, s1, t) => (Ok Pending, s1, (t ++ [EvUncaught e])%list)
  end.

Definition handleUserDbCall (dbCall : DbCall) (sql shapeDefinition : value) (sqlAST : loc)
  : M promise :=
  if Nat.eqb (db_length dbCall) 2 then
    tell (EvDbCall sql true) ;;;
    match with_callback dbCall sql with
    | CbThrows e => ret (Rejected e)
    | CbSilent => ret Pending
    | CbDone when err rows =>
        if truthy err then ret (Rejected err)
        else
          match when with
          | Sync => settle (hydrate "RAW_DATA" rows shapeDefinition sqlAST)
          | Async => detached (hydrate "RAW_DATA" rows shapeDefinition sqlAST)
          end
    end
  else
    tell (EvDbCall sql false) ;;;
    match without_callback dbCall sql with
    | RetThrows e => throw e
    | RetThenable (Fulfils rows) => settle (hydrate "RAW DATA" rows shapeDefinition sqlAST)
    | RetThenable (Rejects e) => ret (Rejected e)
    | RetThenable NeverSettles => ret Pending
    | RetPlain result =>
        _ <- lift (get_prop result "then") ;;
        tell (EvValidate result) ;;;
        rows <- lift (validate result) ;;
        nested <- call (EvNest rows shapeDefinition)
                       (fun s => (nest E rows shapeDefinition, s)) ;;
        ret (Resolved nested)
    end.

Definition joinMonster (resolveInfo : ResolveInfo) (context : value) (dbCall : DbCall)
    (options : option Options) : M promise :=
  let options := default no_options options in
  sqlAST <- call EvQueryASTToSqlAST (queryASTToSqlAST E resolveInfo options) ;;
  compiled <- compileSqlAST sqlAST context options ;;
  if negb (truthy (sql compiled)) then ret (Resolved (VObject []))
  else handleUserDbCall dbCall (sql compiled) (shapeDefinition compiled) sqlAST.

(** [promise.then(obj => { obj.__type__ = type; return obj })]. *)
Definition then_attach_type (type : value) (p : promise) : promise :=
  match p with
  | Resolved obj =>
      match set_prop obj "__type__" type with
      | Ok tagged => Resolved tagged
      | Throw e => Rejected e
      end
  | Rejected e => Rejected e
  | Pending => Pending
  end.

Definition getNode (typeName : string) (resolveInfo : ResolveInfo) (context : value)
    (where_ : option WhereFn) (dbCall : DbCall) (options : option Options) : M promise :=
  let options := default no_options options in
  let type := schema_getType resolveInfo typeName in
  type_name <- lift (get_prop type "name") ;;
  lowered <- lift (toLowerCase type_name) ;;
  let fakeParentNode :=
    {| fields_node := {| type := type; name := lowered; where_ := where_ |} |} in
  namespace <- new_AliasNamespace (minify options) ;;
  sqlAST <- new_object ;;
  let fieldNodes := js_or (fieldNodes resolveInfo) (fieldASTs resolveInfo) in
  fieldNode <- lift (get_index0 fieldNodes) ;;
  call (EvGetGraphQLType sqlAST namespace)
       (getGraphQLType E fieldNode fakeParentNode sqlAST (fragments resolveInfo)
                       (variables resolveInfo) namespace options) ;;;
  call (EvPrune sqlAST namespace) (pruneDuplicateSqlDeps E sqlAST namespace) ;;;
  compiled <- compileSqlAST sqlAST context options ;;
  p <- handleUserDbCall dbCall (sql compiled) (shapeDefinition compiled) sqlAST ;;
  ret (then_attach_type type p).
End Pipeline.

(** ** Reading traces *)

Definition is_stringify (ev : event) : bool :=
  match ev with EvStringify _ _ => true | _ => false end.
Definition is_define_shape (ev : event) : bool :=
  match ev with EvDefineShape _ => true | _ => false end.
Definition is_db_call (ev : event) : bool :=
  match ev with EvDbCall _ _ => true | _ => false end.
Definition is_validate (ev : event) : bool :=
  match ev with EvValidate _ => true | _ => false end.
Definition is_nest (ev : event) : bool :=
  match ev with EvNest _ _ => true | _ => false end.

(** No event of the kind [p] occurs in the trace. *)
Definition absent (p : event -> bool) (t : list event) : Prop := existsb p t = false.

Fixpoint occurrences (p : event -> bool) (t : list event) : nat :=
  match t with
  | [] => 0
  | ev :: rest => (if p ev then 1 else 0) + occurrences p rest
  end.

(** An event of kind [p] occurs, and strictly later one of kind [q]. *)
Fixpoint precedes (p q : event -> bool) (t : list event) : bool :=
  match t with
  | [] => false
  | ev :: rest => (p ev && existsb q rest) || precedes p q rest
  end.

(** Every event of kind [q] comes after some event of kind [p]. *)
Fixpoint guarded_by (p q : event -> bool) (t : list event) : bool :=
  match t with
  | [] => true
  | ev :: rest => if p ev then true else negb (q ev) && guarded_by p q rest
  end.

(** ** Statements of the specification *)



(** ** Collaborators that act on the objects they are handed *)

Section Locality.
Context {Ast Ns : Type}.

Definition update_ast (la : loc) (a : Ast) (s : store Ast Ns) : store Ast Ns :=
  {| asts := <[la := a]> (asts s); namespaces := namespaces s |}.

Definition update_namespace (ln : loc) (n : Ns) (s : store Ast Ns) : store Ast Ns :=
  {| asts := asts s; namespaces := <[ln := n]> (namespaces s) |}.

(** A function of the content of one SQL AST object, run on a reference. *)
Definition on_ast {A} (g : Ast -> result A * Ast) (la : loc) (s : store Ast Ns)
  : result A * store Ast Ns :=
  match asts s !! la with
  | Some a => let '(r, a1) := g a in (r, update_ast la a1 s)
  | None => (Throw (TypeError "not an object"), s)
  end.

(** A function of the contents of an SQL AST and a namespace, run on two
    references. *)
Definition on_both {A} (g : Ast -> Ns -> result A * Ast * Ns) (la ln : loc)
    (s : store Ast Ns) : result A * store Ast Ns :=
  match asts s !! la, namespaces s !! ln with
  | Some a, Some n =>
      let '(r, a1, n1) := g a n in (r, update_namespace ln n1 (update_ast la a1 s))
  | _, _ => (Throw (TypeError "not an object"), s)
  end.

(** The store in which the SQL AST at [la] holds [a] and the namespace at
    [ln] holds [n]. *)
Definition with_objects (la ln : loc) (a : Ast) (n : Ns) (s : store Ast Ns)
  : store Ast Ns :=
  {| asts := <[la := a]> (asts s); namespaces := <[ln := n]> (namespaces s) |}.



End Locality.

(** ** A one-table instance of the collaborators

    Used to run the pipeline on concrete inputs. *)

Module Demo.

(** Modelled from the spec: a SQL AST node of section 3 (the SQL AST builder
    is not under src/), cut down to one table: its name and alias, the
    requested columns in order, the [where] generator and the arguments. *)
Record Node : Type := {
  table : string;
  alias : string;
  columns : list string;
  condition : option WhereFn;
  arguments : value
}.

(** Modelled from the spec: the Alias Namespace of section 4.1 (not under
    src/): the mode, and how many aliases were handed out. *)
Record Namespace : Type := {
  minified : bool;
  allocated : nat
}.

Definition empty_node : Node :=
  {| table := ""; alias := ""; columns := []; condition := None; arguments := VUndefined |}.

Definition allocate (preferred : string) (n : Namespace) : string * Namespace :=
  (if minified n then String (ascii_of_nat (97 + allocated n mod 26)) EmptyString
   else preferred,
   {| minified := minified n; allocated := S (allocated n) |}).

Definition selection_names (fieldNode : value) : list string :=
  match read fieldNode "selections" with
  | VArray names _ => List.map to_string names
  | _ => []
  end.

Definition build (fieldNode : value) (parent : ParentNode) (a : Node) (n : Namespace)
  : result unit * Node * Namespace :=
  let preferred := to_string (name (fields_node parent)) in
  let '(given, n1) := allocate preferred n in
  (Ok tt,
   {| table := preferred; alias := given; columns := selection_names fieldNode;
      condition := where_ (fields_node parent); arguments := read fieldNode "arguments" |},
   n1).

Definition prune (a : Node) (n : Namespace) : result unit * Node * Namespace :=
  (Ok tt,
   {| table := table a; alias := alias a; columns := nodup string_dec (columns a);
      condition := condition a; arguments := arguments a |},
   n).

(** Modelled from the spec: a Dialect Stringifier of section 4.4 (the
    stringifiers are not under src/) for one table: the select list, the
    FROM clause and the WHERE clause; the [where] generator is invoked once
    with the quoted alias, and what it throws is not caught. *)
Definition render (quote : string) (a : Node) (context : value) : result value * Node :=
  match columns a with
  | [] => (Ok (VStr ""), a)
  | _ :: _ =>
      let quoted := quote ++ alias a ++ quote in
      let head :=
        "SELECT " ++ String.concat ", " (List.map (fun c => quoted ++ "." ++ c) (columns a))
        ++ " FROM " ++ table a ++ " " ++ quoted in
      match condition a with
      | None => (Ok (VStr head), a)
      | Some generator =>
          match generator (VStr quoted) (arguments a) context with
          | Ok text => (Ok (VStr (head ++ " WHERE " ++ to_string text)), a)
          | Throw e => (Throw e, a)
          end
      end
  end.

Definition shape (a : Node) : result value * Node :=
  (Ok (VObject (List.map (fun c => (c, VStr c)) (columns a))), a).

(** The first row, or [null] when there is none. *)
Definition first_row (rows shapeDefinition : value) : result value :=
  match rows with
  | VArray (row :: _) _ => Ok row
  | _ => Ok VNull
  end.

Definition requested (a : Node) (prop : string * value) : bool :=
  existsb (String.eqb (fst prop)) (columns a).

(** Keeps the requested columns of the hydrated object. *)
Definition finalize (nested : value) (a : Node) : result value * Node :=
  match nested with
  | VObject props => (Ok (VObject (List.filter (requested a) props)), a)
  | _ => (Ok nested, a)
  end.

Definition stringifier (quote : string) : Stringifier Node Namespace :=
  fun la context => on_ast (fun a => render quote a context) la.

Definition modules (path : string) : option (ModuleExports Node Namespace) :=
  if String.eqb path "./stringifiers/standard"
  then Some {| default_export := Some (stringifier dquote) |}
  else if String.eqb path "./stringifiers/pg"
  then Some {| default_export := Some (stringifier dquote) |}
  else if String.eqb path "./stringifiers/mysql"
  then Some {| default_export := Some (stringifier "`") |}
  else None.

Definition query_to_ast (resolveInfo : ResolveInfo) (options : Options)
    (s : store Node Namespace) : result loc * store Node Namespace :=
  let la := fresh (dom (asts s)) in
  let parent :=
    {| fields_node := {| type := VUndefined; name := VStr "query"; where_ := None |} |} in
  let fieldNode :=
    match fieldNodes resolveInfo with
    | VArray (x :: _) _ => x
    | _ => VUndefined
    end in
  let '(_, built, n) :=
    build fieldNode parent empty_node {| minified := truthy (minify options); allocated := 0 |} in
  let '(_, pruned, _) := prune built n in
  (Ok la, update_ast la pruned s).

Definition env : Env Node Namespace := {|
  queryASTToSqlAST := query_to_ast;
  getGraphQLType := fun fieldNode parent la _ _ ln _ => on_both (build fieldNode parent) la ln;
  pruneDuplicateSqlDeps := on_both prune;
  AliasNamespace := fun minify => {| minified := truthy minify; allocated := 0 |};
  empty_object := empty_node;
  require := modules;
  defineObjectShape := on_ast shape;
  nest := first_row;
  postProcess := fun nested => on_ast (finalize nested);
  util_inspect := to_string
|}.

Definition empty_store : store Node Namespace := {| asts := ∅; namespaces := ∅ |}.

Definition user_type : value := VObject [("name", VStr "User")].

Definition user_query : value :=
  VObject [("selections", VArray [VStr "id"; VStr "email"; VStr "id"] []);
           ("arguments", VObject [("id", VNum 7)])].

Definition info : ResolveInfo := {|
  schema_getType := fun typeName => if String.eqb typeName "User" then user_type else VUndefined;
  fieldNodes := VArray [user_query] [];
  fieldASTs := VUndefined;
  fragments := VObject [];
  variables := VObject []
|}.

Definition by_id : WhereFn := fun tableAlias args _ =>
  Ok (VStr (to_string tableAlias ++ ".id = " ++ to_string (read args "id"))).

Definition not_authorised : value := VError "Error" "not authorised" [].

Definition forbidden : WhereFn := fun _ _ _ => Throw not_authorised.

Definition user_row : value :=
  VObject [("id", VNum 7); ("email", VStr "a@b.c"); ("password", VStr "secret")].

Definition returns (v : value) : DbCall := {|
  db_length := 1;
  with_callback := fun _ => CbSilent;
  without_callback := fun _ => RetPlain v
|}.

Definition promises (p : settlement) : DbCall := {|
  db_length := 1;
  with_callback := fun _ => CbSilent;
  without_callback := fun _ => RetThenable p
|}.

Definition calls_back (when : timing) (err rows : value) : DbCall := {|
  db_length := 2;
  with_callback := fun _ => CbDone when err rows;
  without_callback := fun _ => RetPlain VUndefined
|}.

Definition options_for (d : value) : Options := {| minify := VBool true; dialect := d |}.

(** The SQL AST of the user query, as the builder and the pruner leave it. *)
Definition user_node (generator : option WhereFn) : Node :=
  {| table := "user"; alias := "a"; columns := ["email"; "id"];
     condition := generator; arguments := VObject [("id", VNum 7)] |}.

Definition user_store (generator : option WhereFn) : store Node Namespace :=
  with_objects 1%positive 1%positive (user_node generator)
    {| minified := true; allocated := 1 |} empty_store.

Definition connection_lost : value := VError "Error" "connection lost" [].

End Demo.

Definition demo_run : result promise * store Demo.Node Demo.Namespace * list event :=
  getNode Demo.env "User" Demo.info VNull (Some Demo.by_id)
          (Demo.promises (Fulfils (VArray [Demo.user_row] [])))
          (Some (Demo.options_for (VStr "mysql"))) Demo.empty_store.

(** ** How the transport hands a value to the pipeline *)



Fixpoint uncaught (t : list event) : option value :=
  match t with
  | [] => None
  | EvUncaught e :: _ => Some e
  | _ :: rest => uncaught rest
  end.

(** The error a run ends in: thrown to the caller, carried by the rejected
    promise, or left uncaught while the promise stays pending. *)
Definition failure_of {Ast Ns} (run : result promise * store Ast Ns * list event)
  : option value :=
  match result_of run with
  | Throw e => Some e
  | Ok (Rejected e) => Some e
  | Ok Pending => uncaught (trace_of run)
  | Ok (Resolved _) => None
  end.

(** The events [compileSqlAST] and [handleUserDbCall] can record. *)
Definition compile_event (ev : event) : bool :=
  match ev with
  | EvDebug _ | EvRequire _ | EvStringify _ _ | EvDefineShape _ => true
  | _ => false
  end.

Definition transport_event (ev : event) : bool :=
  match ev with
  | EvDebug _ | EvDbCall _ _ | EvValidate _ | EvNest _ _ | EvPostProcess _ _
  | EvUncaught _ => true
  | _ => false
  end.

(** The module path [compileSqlAST] passes to [require]. *)
Definition selected_path (options : Options) : string :=
  stringifier_path (js_or (dialect options) (VStr "standard")).




(** ** More readings of traces *)

Definition is_require (ev : event) : bool :=
  match ev with EvRequire _ => true | _ => false end.

Definition is_uncaught (ev : event) : bool :=
  match ev with EvUncaught _ => true | _ => false end.

(** The record [resolveInfo] with other field nodes. *)
Definition with_fieldNodes (nodes : value) (resolveInfo : ResolveInfo) : ResolveInfo :=
  {| schema_getType := schema_getType resolveInfo;
     fieldNodes := nodes;
     fieldASTs := fieldASTs resolveInfo;
     fragments := fragments resolveInfo;
     variables := variables resolveInfo |}.

Definition with_fieldASTs (nodes : value) (resolveInfo : ResolveInfo) : ResolveInfo :=
  {| schema_getType := schema_getType resolveInfo;
     fieldNodes := fieldNodes resolveInfo;
     fieldASTs := nodes;
     fragments := fragments resolveInfo;
     variables := variables resolveInfo |}.

(** More inputs for the one-table instance. *)
Module DemoInputs.

(** A query that selects no field: the one-table stringifier renders the
    empty string for it. *)
Definition bare_query : value := VObject [("selections", VArray [] [])].

Definition bare_info : ResolveInfo := with_fieldNodes (VArray [bare_query] []) Demo.info.

(** A transport that throws, however it is called. *)
Definition throws (length : nat) (e : value) : DbCall := {|
  db_length := length;
  with_callback := fun _ => CbThrows e;
  without_callback := fun _ => RetThrows e
|}.

(** [resolveInfo] of an older graphql-js: the field nodes are in
    [fieldASTs]. *)
Definition legacy_info : ResolveInfo :=
  with_fieldASTs (VArray [Demo.user_query] []) (with_fieldNodes VUndefined Demo.info).

Definition no_fields_info : ResolveInfo := with_fieldNodes VUndefined Demo.info.

End DemoInputs.

(** The one-table instance with a hydration that refuses an empty result. *)
Module StrictDemo.

Definition no_rows : value := VError "Error" "no rows" [].

Definition some_row (rows shapeDefinition : value) : result value :=
  match rows with
  | VArray (row :: _) _ => Ok row
  | _ => Throw no_rows
  end.

Definition env : Env Demo.Node Demo.Namespace := {|
  queryASTToSqlAST := queryASTToSqlAST Demo.env;
  getGraphQLType := getGraphQLType Demo.env;
  pruneDuplicateSqlDeps := pruneDuplicateSqlDeps Demo.env;
  AliasNamespace := AliasNamespace Demo.env;
  empty_object := empty_object Demo.env;
  require := require Demo.env;
  defineObjectShape := defineObjectShape Demo.env;
  nest := some_row;
  postProcess := postProcess Demo.env;
  util_inspect := util_inspect Demo.env
|}.

End StrictDemo.

(** * Properties of the pipeline *)

Example to_string_nested :
  to_string (VArray [VNum 1; VNull; VArray [VStr "a"; VNum (-2)] []] []) = "1,,a,-2".
Proof. vm_compute. reflexivity. Qed.

Section Examples.
Context {Ast Ns : Type} (E : Env Ast Ns).

Example validate_array :
  validate E (VArray [VObject [("id", VNum 1)]] []) = Ok (VArray [VObject [("id", VNum 1)]] []).
Proof. reflexivity. Qed.

Example validate_rows_property :
  validate E (VObject [("rowCount", VNum 1); ("rows", VArray [VNull] [])])
  = Ok (VArray [VNull] []).
Proof. reflexivity. Qed.

Example validate_empty_rows_property :
  validate E (VObject [("rows", VStr "")]) = Throw (validate_error E (VObject [("rows", VStr "")])).
Proof. reflexivity. Qed.

Example validate_string :
  validate E (VStr "rows") = Throw (validate_error E (VStr "rows")).
Proof. reflexivity. Qed.

Example validate_undefined :
  validate E VUndefined = Throw (validate_error E VUndefined).
Proof. reflexivity. Qed.

(** A transport that returns nothing: reading [result.then] throws before
    [validate] is reached. *)
Example direct_return_of_undefined (text shape : value) (sqlAST : loc) (s : store Ast Ns) :
  handleUserDbCall E
    {| db_length := 1; with_callback := fun _ => CbSilent;
       without_callback := fun _ => RetPlain VUndefined |} text shape sqlAST s
  = (Throw (TypeError "Cannot read property then"), s, [EvDbCall text false]).
Proof. reflexivity. Qed.

(** Rows that are not an array make the asynchronous branches stop at
    [rows.slice]. *)
Example promise_of_unsliceable_rows (text shape : value) (sqlAST : loc) (s : store Ast Ns) :
  handleUserDbCall E
    {| db_length := 0; with_callback := fun _ => CbSilent;
       without_callback := fun _ => RetThenable (Fulfils (VObject [("rows", VNum 5)])) |}
    text shape sqlAST s
  = (Ok (Rejected (TypeError "slice is not a function")), s,
     [EvDbCall text false; EvValidate (VObject [("rows", VNum 5)])]).
Proof. reflexivity. Qed.
End Examples.

Example demo_getNode :
  result_of demo_run
  = Ok (Resolved (VObject [("id", VNum 7); ("email", VStr "a@b.c");
                           ("__type__", Demo.user_type)]))
  /\ trace_of demo_run
  = [EvNewNamespace 1%positive; EvNewObject 1%positive;
     EvGetGraphQLType 1%positive 1%positive; EvPrune 1%positive 1%positive;
     EvDebug "SQL_AST"; EvRequire "./stringifiers/mysql";
     EvStringify "./stringifiers/mysql" 1%positive;
     EvDebug "SQL"; EvDefineShape 1%positive; EvDebug "SHAPE_DEFINITION";
     EvDbCall (VStr "SELECT `a`.email, `a`.id FROM user `a` WHERE `a`.id = 7") false;
     EvValidate (VArray [Demo.user_row] []); EvDebug "RAW DATA"; EvDebug "1 rows...";
     EvNest (VArray [Demo.user_row] []) (VObject [("email", VStr "email"); ("id", VStr "id")]);
     EvPostProcess Demo.user_row 1%positive].
Proof. split; vm_compute; reflexivity. Qed.

(** ** The transport: [validate] and [handleUserDbCall] *)

Section Transport.
Context {Ast Ns : Type} (E : Env Ast Ns).

Ltac run :=
  unfold handleUserDbCall, hydrate, settle, detached, bind, tell, lift, call, ret,
    throw, debug, failure_of, result_of, trace_of, absent in *.


Lemma validate_ok_not_nullish (v rows : value) :
  validate E v = Ok rows -> nullish v = false.
Proof. destruct v; simpl; try reflexivity; discriminate. Qed.



(** Rows that [validate] accepts and that can be sliced are hydrated, and
    the hydrated value is post-processed. *)
Lemma hydrate_finalizes (label : string) (v shape : value) (sqlAST : loc)
    (s : store Ast Ns) (rows sample nested : value) :
  validate E v = Ok rows ->
  slice_0_8 rows = Ok sample ->
  nest E rows shape = Ok nested ->
  hydrate E label v shape sqlAST s
  = (fst (postProcess E nested sqlAST s), snd (postProcess E nested sqlAST s),
     [EvValidate v; EvDebug label; EvDebug (to_string (read rows "length") ++ " rows...");
      EvNest rows shape; EvPostProcess nested sqlAST]).
Proof.
  intros Hval Hslice Hnest. run. rewrite Hval, Hslice. simpl.
  assert (Hn : nullish rows = false) by (destruct rows; simpl in *; congruence).
  unfold get_prop. rewrite Hn, Hnest. simpl.
  destruct (postProcess E nested sqlAST s) as [r s1]. reflexivity.
Qed.


(** C10. In callback mode (the transport declares two parameters), when the
    transport calls [done] with a truthy error, the returned promise rejects
    with that very error; the only thing that happened is the call to the
    transport: no validation, no hydration, no post-processing. *)
Theorem callback_error_rejects (dbCall : DbCall) (sql shape : value) (sqlAST : loc)
    (s : store Ast Ns) (when : timing) (err rows : value) :
  db_length dbCall = 2 ->
  with_callback dbCall sql = CbDone when err rows ->
  truthy err = true ->
  handleUserDbCall E dbCall sql shape sqlAST s = (Ok (Rejected err), s, [EvDbCall sql true]).
Proof.
  intros Hlen Hcb Herr. run. rewrite Hlen. simpl. rewrite Hcb, Herr. reflexivity.
Qed.

(** The two asynchronous conventions finalize what they hydrate. *)
Lemma promise_rows_finalized (dbCall : DbCall) (sql shape : value) (sqlAST : loc)
    (s : store Ast Ns) (v rows sample nested : value) :
  db_length dbCall <> 2 ->
  without_callback dbCall sql = RetThenable (Fulfils v) ->
  validate E v = Ok rows ->
  slice_0_8 rows = Ok sample ->
  nest E rows shape = Ok nested ->
  In (EvPostProcess nested sqlAST)
     (trace_of (handleUserDbCall E dbCall sql shape sqlAST s)) /\
  (forall out, fst (postProcess E nested sqlAST s) = Ok out ->
     result_of (handleUserDbCall E dbCall sql shape sqlAST s) = Ok (Resolved out)).
Proof.
  intros Hlen Hret Hval Hslice Hnest.
  pose proof (hydrate_finalizes "RAW DATA" v shape sqlAST s rows sample nested
                Hval Hslice Hnest) as Hh.
  unfold handleUserDbCall, settle, bind, tell.
  apply Nat.eqb_neq in Hlen. rewrite Hlen, Hret, Hh.
  destruct (postProcess E nested sqlAST s) as [[out | e] s1]; simpl; split;
    try (intros out' H; unfold result_of; simpl; congruence); auto 10.
Qed.

Lemma callback_rows_finalized (dbCall : DbCall) (sql shape : value) (sqlAST : loc)
    (s : store Ast Ns) (when : timing) (err v rows sample nested : value) :
  db_length dbCall = 2 ->
  with_callback dbCall sql = CbDone when err v ->
  truthy err = false ->
  validate E v = Ok rows ->
  slice_0_8 rows = Ok sample ->
  nest E rows shape = Ok nested ->
  In (EvPostProcess nested sqlAST)
     (trace_of (handleUserDbCall E dbCall sql shape sqlAST s)) /\
  (forall out, fst (postProcess E nested sqlAST s) = Ok out ->
     result_of (handleUserDbCall E dbCall sql shape sqlAST s) = Ok (Resolved out)).
Proof.
  intros Hlen Hcb Herr Hval Hslice Hnest.
  pose proof (hydrate_finalizes "RAW_DATA" v shape sqlAST s rows sample nested
                Hval Hslice Hnest) as Hh.
  unfold handleUserDbCall, settle, detached, bind, tell.
  rewrite Hlen, Hcb, Herr. simpl. destruct when; rewrite Hh;
    destruct (postProcess E nested sqlAST s) as [[out | e] s1]; simpl; split;
    try (intros out' H; unfold result_of; simpl; congruence); auto 10.
Qed.

(** C3. The direct-return convention: the rows are validated and hydrated,
    and the hydrated value is what the promise resolves to; [postProcess] is
    never called on it. *)
Theorem direct_return_skips_postProcess (dbCall : DbCall) (sql shape : value)
    (sqlAST : loc) (s : store Ast Ns) (v rows nested : value) :
  db_length dbCall <> 2 ->
  without_callback dbCall sql = RetPlain v ->
  validate E v = Ok rows ->
  nest E rows shape = Ok nested ->
  handleUserDbCall E dbCall sql shape sqlAST s
  = (Ok (Resolved nested), s, [EvDbCall sql false; EvValidate v; EvNest rows shape]).
Proof.
  intros Hlen Hret Hval Hnest. run.
  apply Nat.eqb_neq in Hlen. rewrite Hlen. simpl. rewrite Hret.
  unfold get_prop. rewrite (validate_ok_not_nullish _ _ Hval). rewrite Hval, Hnest.
  reflexivity.
Qed.

End Transport.

(** ** The compile step: [compileSqlAST] *)

Lemma absent_of_kind (kind p : event -> bool) (t : list event) :
  (forall ev, kind ev = true -> p ev = false) ->
  forallb kind t = true -> absent p t.
Proof.
  intros Hk. unfold absent. induction t as [| ev t IH]; simpl; [reflexivity |].
  intros H. apply andb_prop in H. destruct H as [H1 H2].
  rewrite (Hk _ H1). simpl. auto.
Qed.


(** An event of one kind is not of another. *)
Ltac other_kind :=
  let ev := fresh "ev" in intros ev ?; destruct ev; try discriminate; reflexivity.

Ltac by_kind H :=
  first [ apply (absent_of_kind compile_event); [other_kind | exact H]
        | apply (absent_of_kind transport_event); [other_kind | exact H] ].



Section Compile.
Context {Ast Ns : Type} (E : Env Ast Ns).

(** Every way [compileSqlAST] can go. *)
Lemma compile_cases (sqlAST : loc) (context : value) (options : Options) (s : store Ast Ns) :
  compileSqlAST E sqlAST context options s =
  let path := selected_path options in
  match require E path with
  | None => (Throw (module_not_found path), s, [EvDebug "SQL_AST"; EvRequire path])
  | Some m =>
      match default_export m with
      | None => (Throw (TypeError "stringify is not a function"), s,
                 [EvDebug "SQL_AST"; EvRequire path])
      | Some f =>
          match f sqlAST context s with
          | (Throw e, s1) =>
              (Throw e, s1, [EvDebug "SQL_AST"; EvRequire path; EvStringify path sqlAST])
          | (Ok text, s1) =>
              match defineObjectShape E sqlAST s1 with
              | (Throw e, s2) =>
                  (Throw e, s2,
                   [EvDebug "SQL_AST"; EvRequire path; EvStringify path sqlAST;
                    EvDebug "SQL"; EvDefineShape sqlAST])
              | (Ok shape, s2) =>
                  (Ok {| sql := text; shapeDefinition := shape |}, s2,
                   [EvDebug "SQL_AST"; EvRequire path; EvStringify path sqlAST;
                    EvDebug "SQL"; EvDefineShape sqlAST; EvDebug "SHAPE_DEFINITION"])
              end
          end
      end
  end.
Proof.
  unfold compileSqlAST, require_default, selected_path, bind, tell, call, ret, throw, debug.
  simpl. destruct (require E _) as [m |]; simpl; [| reflexivity].
  destruct (default_export m) as [f |]; simpl; [| reflexivity].
  destruct (f sqlAST context s) as [[text | e] s1]; simpl; [| reflexivity].
  destruct (defineObjectShape E sqlAST s1) as [[shape | e] s2]; reflexivity.
Qed.

Lemma compile_trace_kind (sqlAST : loc) (context : value) (options : Options)
    (s : store Ast Ns) :
  forallb compile_event (trace_of (compileSqlAST E sqlAST context options s)) = true.
Proof.
  rewrite compile_cases. cbv zeta.
  destruct (require E _) as [m |]; [| reflexivity].
  destruct (default_export m) as [f |]; [| reflexivity].
  destruct (f sqlAST context s) as [[text | e] s1]; [| reflexivity].
  destruct (defineObjectShape E sqlAST s1) as [[shape | e] s2]; reflexivity.
Qed.

(** The module [compileSqlAST] asks for is the selected one, and so is the
    stringifier it calls. *)
Lemma compile_loads_selected (sqlAST : loc) (context : value) (options : Options)
    (s : store Ast Ns) :
  In (EvRequire (selected_path options))
     (trace_of (compileSqlAST E sqlAST context options s)) /\
  forall ev,
    In ev (trace_of (compileSqlAST E sqlAST context options s)) ->
    match ev with
    | EvRequire path | EvStringify path _ => path = selected_path options
    | _ => True
    end.
Proof.
  rewrite compile_cases. cbv zeta. unfold trace_of.
  destruct (require E _) as [m |];
    [destruct (default_export m) as [f |];
     [destruct (f sqlAST context s) as [[text | e] s1];
      [destruct (defineObjectShape E sqlAST s1) as [[shape | e] s2] | ] | ] | ];
    (split; [simpl; auto |]);
    intros ev Hin; simpl in Hin;
    repeat (destruct Hin as [<- | Hin]; [first [reflexivity | exact I] |]);
    contradiction.
Qed.

(** C8. When [options.dialect] is absent or falsy, the compile step behaves
    in every respect as with the dialect ['standard']: the module it loads,
    and the only stringifier it can call, is [./stringifiers/standard]. *)
Theorem falsy_dialect_selects_standard (sqlAST : loc) (context : value) (options : Options)
    (s : store Ast Ns) :
  truthy (dialect options) = false ->
  selected_path options = "./stringifiers/standard" /\
  compileSqlAST E sqlAST context options s
  = compileSqlAST E sqlAST context
      {| minify := minify options; dialect := VStr "standard" |} s /\
  In (EvRequire "./stringifiers/standard")
     (trace_of (compileSqlAST E sqlAST context options s)) /\
  (forall path, In (EvRequire path) (trace_of (compileSqlAST E sqlAST context options s)) ->
                path = "./stringifiers/standard") /\
  (forall path la, In (EvStringify path la)
                      (trace_of (compileSqlAST E sqlAST context options s)) ->
                   path = "./stringifiers/standard").
Proof.
  intros Hf.
  assert (Hp : selected_path options = "./stringifiers/standard").
  { unfold selected_path, js_or. rewrite Hf. reflexivity. }
  destruct (compile_loads_selected sqlAST context options s) as [Hin Hall].
  rewrite Hp in Hin, Hall.
  split; [exact Hp |]. split; [| split; [exact Hin | split]].
  - rewrite !compile_cases. rewrite Hp. reflexivity.
  - intros path H. apply (Hall _ H).
  - intros path la H. apply (Hall _ H).
Qed.
End Compile.

(** ** The entry points: [joinMonster] and [getNode] *)

Section EntryPoints.
Context {Ast Ns : Type} (E : Env Ast Ns).



(** Every way [joinMonster] can go. *)
Lemma joinMonster_cases (resolveInfo : ResolveInfo) (context : value) (dbCall : DbCall)
    (options : option Options) (s : store Ast Ns) :
  joinMonster E resolveInfo context dbCall options s =
  let o := default no_options options in
  match queryASTToSqlAST E resolveInfo o s with
  | (Throw e, s0) => (Throw e, s0, [EvQueryASTToSqlAST])
  | (Ok sqlAST, s0) =>
      match compileSqlAST E sqlAST context o s0 with
      | (Throw e, s1, t) => (Throw e, s1, EvQueryASTToSqlAST :: t)
      | (Ok c, s1, t) =>
          if truthy (sql c)
          then
            let '(r, s2, t2) :=
              handleUserDbCall E dbCall (sql c) (shapeDefinition c) sqlAST s1 in
            (r, s2, EvQueryASTToSqlAST :: (t ++ t2)%list)
          else (Ok (Resolved (VObject [])), s1, EvQueryASTToSqlAST :: (t ++ [])%list)
      end
  end.
Proof.
  unfold joinMonster, bind, call. cbv zeta.
  destruct (queryASTToSqlAST E resolveInfo _ s) as [[sqlAST | e] s0]; [| reflexivity].
  destruct (compileSqlAST E sqlAST context _ s0) as [[[c | e] s1] t]; [| reflexivity].
  destruct (truthy (sql c)); simpl; [| reflexivity].
  destruct (handleUserDbCall E dbCall (sql c) (shapeDefinition c) sqlAST s1)
    as [[r s2] t2]. reflexivity.
Qed.

(** Every way [getNode] can go. *)
Lemma getNode_cases (typeName : string) (resolveInfo : ResolveInfo) (context : value)
    (where_ : option WhereFn) (dbCall : DbCall) (options : option Options)
    (s : store Ast Ns) :
  getNode E typeName resolveInfo context where_ dbCall options s =
  let o := default no_options options in
  let type := schema_getType resolveInfo typeName in
  match get_prop type "name" with
  | Throw e => (Throw e, s, [])
  | Ok type_name =>
      match toLowerCase type_name with
      | Throw e => (Throw e, s, [])
      | Ok lowered =>
          let parent :=
            {| fields_node := {| type := type; name := lowered; where_ := where_ |} |} in
          let ln := fresh (dom (namespaces s)) in
          let la := fresh (dom (asts s)) in
          let s2 :=
            update_ast la (empty_object E)
              (update_namespace ln (AliasNamespace E (minify o)) s) in
          match get_index0 (js_or (fieldNodes resolveInfo) (fieldASTs resolveInfo)) with
          | Throw e => (Throw e, s2, [EvNewNamespace ln; EvNewObject la])
          | Ok fieldNode =>
              match getGraphQLType E fieldNode parent la (fragments resolveInfo)
                      (variables resolveInfo) ln o s2 with
              | (Throw e, s3) =>
                  (Throw e, s3, [EvNewNamespace ln; EvNewObject la; EvGetGraphQLType la ln])
              | (Ok _, s3) =>
                  match pruneDuplicateSqlDeps E la ln s3 with
                  | (Throw e, s4) =>
                      (Throw e, s4,
                       [EvNewNamespace ln; EvNewObject la; EvGetGraphQLType la ln;
                        EvPrune la ln])
                  | (Ok _, s4) =>
                      match compileSqlAST E la context o s4 with
                      | (Throw e, s5, t) =>
                          (Throw e, s5,
                           EvNewNamespace ln :: EvNewObject la :: EvGetGraphQLType la ln ::
                           EvPrune la ln :: t)
                      | (Ok c, s5, t) =>
                          let '(r, s6, t2) :=
                            handleUserDbCall E dbCall (sql c) (shapeDefinition c) la s5 in
                          (match r with
                           | Ok p => Ok (then_attach_type type p)
                           | Throw e => Throw e
                           end, s6,
                           EvNewNamespace ln :: EvNewObject la :: EvGetGraphQLType la ln ::
                           EvPrune la ln :: (t ++ t2)%list)
                      end
                  end
              end
          end
      end
  end.
Proof.
  unfold getNode, bind, call, lift, ret, new_AliasNamespace, new_object,
    update_ast, update_namespace. cbv zeta.
  destruct (get_prop _ "name") as [type_name | e]; [| reflexivity].
  destruct (toLowerCase type_name) as [lowered | e]; [| reflexivity].
  simpl.
  destruct (get_index0 _) as [fieldNode | e]; [| reflexivity].
  destruct (getGraphQLType E _ _ _ _ _ _ _ _) as [[[] | e] s3]; [| reflexivity].
  destruct (pruneDuplicateSqlDeps E _ _ s3) as [[[] | e] s4]; [| reflexivity].
  destruct (compileSqlAST E _ context _ s4) as [[[c | e] s5] t]; [| reflexivity].
  destruct (handleUserDbCall E dbCall _ _ _ s5) as [[[p | e] s6] t2]; simpl;
    rewrite ?app_nil_r; reflexivity.
Qed.
End EntryPoints.

Section Errors.
Context {Ast Ns : Type} (E : Env Ast Ns).




(** C2. [compileSqlAST] returns [{ sql, shapeDefinition }] only when the
    stringifier and the shape builder both returned, and then with exactly
    what they returned; in every other case it throws and returns nothing,
    also when the SQL text had already been produced.  A throw of the compile
    step is the throw of [joinMonster], which then never reaches the
    transport or the hydration. *)
Theorem compile_all_or_nothing (sqlAST : loc) (context : value) (options : Options)
    (s : store Ast Ns) :
  ((exists c m f s1 s2,
       result_of (compileSqlAST E sqlAST context options s) = Ok c /\
       require E (selected_path options) = Some m /\
       default_export m = Some f /\
       f sqlAST context s = (Ok (sql c), s1) /\
       defineObjectShape E sqlAST s1 = (Ok (shapeDefinition c), s2)) \/
   (exists e, result_of (compileSqlAST E sqlAST context options s) = Throw e)) /\
  (forall m f text s1 e s2,
      require E (selected_path options) = Some m ->
      default_export m = Some f ->
      f sqlAST context s = (Ok text, s1) ->
      defineObjectShape E sqlAST s1 = (Throw e, s2) ->
      result_of (compileSqlAST E sqlAST context options s) = Throw e) /\
  (forall resolveInfo dbCall s0 e,
      queryASTToSqlAST E resolveInfo options s0 = (Ok sqlAST, s) ->
      result_of (compileSqlAST E sqlAST context options s) = Throw e ->
      result_of (joinMonster E resolveInfo context dbCall (Some options) s0) = Throw e /\
      absent is_db_call (trace_of (joinMonster E resolveInfo context dbCall (Some options) s0)) /\
      absent is_nest (trace_of (joinMonster E resolveInfo context dbCall (Some options) s0))).
Proof.
  split; [| split].
  - rewrite compile_cases. cbv zeta. unfold result_of.
    destruct (require E _) as [m |] eqn:Hm; [| right; simpl; eauto].
    destruct (default_export m) as [f |] eqn:Hf; [| right; simpl; eauto].
    destruct (f sqlAST context s) as [[text | e] s1] eqn:Hs; [| right; simpl; eauto].
    destruct (defineObjectShape E sqlAST s1) as [[shape | e] s2] eqn:Hd;
      [| right; simpl; eauto].
    left. exists {| sql := text; shapeDefinition := shape |}, m, f, s1, s2. simpl. auto.
  - intros m f text s1 e s2 Hm Hf Hs Hd. rewrite compile_cases. cbv zeta.
    rewrite Hm, Hf, Hs, Hd. reflexivity.
  - intros resolveInfo dbCall s0 e Hq Hc. rewrite joinMonster_cases. cbv zeta.
    change (default no_options (Some options)) with options. rewrite Hq.
    pose proof (compile_trace_kind E sqlAST context options s) as Hk.
    unfold result_of, trace_of in *.
    destruct (compileSqlAST E sqlAST context options s) as [[[c | e'] s1] t];
      simpl in *; [discriminate |].
    injection Hc as ->. split; [reflexivity |]. split.
    + change (absent is_db_call t). by_kind Hk.
    + change (absent is_nest t). by_kind Hk.
Qed.

(** C4. What the stringifier throws (an exception raised by a [where] or
    [join] generator it invokes comes out of it as its own throw) is thrown
    by [compileSqlAST], by [joinMonster] and by [getNode] as the very same
    value, synchronously; nothing runs after the stringifier. *)
Theorem generator_exception_propagates (sqlAST : loc) (context : value) (options : Options)
    (s s1 : store Ast Ns) (m : ModuleExports Ast Ns) (f : Stringifier Ast Ns) (e : value) :
  require E (selected_path options) = Some m ->
  default_export m = Some f ->
  f sqlAST context s = (Throw e, s1) ->
  compileSqlAST E sqlAST context options s
  = (Throw e, s1,
     [EvDebug "SQL_AST"; EvRequire (selected_path options);
      EvStringify (selected_path options) sqlAST]) /\
  (forall resolveInfo dbCall s0,
      queryASTToSqlAST E resolveInfo options s0 = (Ok sqlAST, s) ->
      joinMonster E resolveInfo context dbCall (Some options) s0
      = (Throw e, s1,
         [EvQueryASTToSqlAST; EvDebug "SQL_AST"; EvRequire (selected_path options);
          EvStringify (selected_path options) sqlAST])) /\
  (forall typeName resolveInfo where_ dbCall s0 type_name lowered fieldNode s3 namespace,
      get_prop (schema_getType resolveInfo typeName) "name" = Ok type_name ->
      toLowerCase type_name = Ok lowered ->
      get_index0 (js_or (fieldNodes resolveInfo) (fieldASTs resolveInfo)) = Ok fieldNode ->
      namespace = fresh (dom (namespaces s0)) ->
      sqlAST = fresh (dom (asts s0)) ->
      getGraphQLType E fieldNode
        {| fields_node := {| type := schema_getType resolveInfo typeName;
                             name := lowered; where_ := where_ |} |}
        sqlAST (fragments resolveInfo) (variables resolveInfo) namespace options
        (update_ast sqlAST (empty_object E)
           (update_namespace namespace (AliasNamespace E (minify options)) s0))
      = (Ok tt, s3) ->
      pruneDuplicateSqlDeps E sqlAST namespace s3 = (Ok tt, s) ->
      getNode E typeName resolveInfo context where_ dbCall (Some options) s0
      = (Throw e, s1,
         [EvNewNamespace namespace; EvNewObject sqlAST;
          EvGetGraphQLType sqlAST namespace; EvPrune sqlAST namespace;
          EvDebug "SQL_AST"; EvRequire (selected_path options);
          EvStringify (selected_path options) sqlAST])).
Proof.
  intros Hm Hf Hs.
  assert (Hc : compileSqlAST E sqlAST context options s
               = (Throw e, s1,
                  [EvDebug "SQL_AST"; EvRequire (selected_path options);
                   EvStringify (selected_path options) sqlAST])).
  { rewrite compile_cases. cbv zeta. rewrite Hm, Hf, Hs. reflexivity. }
  split; [exact Hc |]. split.
  - intros resolveInfo dbCall s0 Hq. rewrite joinMonster_cases. cbv zeta.
    change (default no_options (Some options)) with options. rewrite Hq, Hc. reflexivity.
  - intros typeName resolveInfo where_ dbCall s0 type_name lowered fieldNode s3 namespace
      Hname Hlow Hidx -> Hla Hb Hp.
    rewrite getNode_cases. cbv zeta.
    change (default no_options (Some options)) with options.
    rewrite Hname, Hlow, Hidx. rewrite <- Hla. rewrite Hb, Hp, Hc. reflexivity.
Qed.

End Errors.

(** ** The order of the passes *)

Lemma occurrences_absent (p : event -> bool) (t : list event) :
  absent p t -> occurrences p t = 0.
Proof.
  unfold absent. induction t as [| ev t IH]; simpl; [reflexivity |].
  destruct (p ev); simpl; [discriminate | exact IH].
Qed.

Lemma occurrences_app (p : event -> bool) (t1 t2 : list event) :
  occurrences p (t1 ++ t2)%list = occurrences p t1 + occurrences p t2.
Proof. induction t1 as [| ev t1 IH]; simpl; [reflexivity |]. rewrite IH. lia. Qed.

Section Order.
Context {Ast Ns : Type} (E : Env Ast Ns).

End Order.

(** ** Isolation of one compilation from another *)

Section Isolation.
Context {Ast Ns : Type} (E : Env Ast Ns).




Lemma on_ast_run {A} (g : Ast -> result A * Ast) (la : loc) (s : store Ast Ns) (a : Ast) :
  asts s !! la = Some a ->
  on_ast g la s = (fst (g a), update_ast la (snd (g a)) s).
Proof. intros H. unfold on_ast. rewrite H. destruct (g a). reflexivity. Qed.







Lemma with_objects_ast (la ln : loc) (a : Ast) (n : Ns) (s : store Ast Ns) :
  asts (with_objects la ln a n s) !! la = Some a.
Proof. unfold with_objects. simpl. apply lookup_insert_eq. Qed.













End Isolation.

(** ** The pipeline on concrete inputs *)









(** What the one-table stringifier throws is what the generator threw. *)
Lemma demo_render_lets_generator_throw (quote : string) (a : Demo.Node) (context : value)
    (generator : WhereFn) (e : value) :
  Demo.columns a <> [] ->
  Demo.condition a = Some generator ->
  generator (VStr (quote ++ Demo.alias a ++ quote)) (Demo.arguments a) context = Throw e ->
  Demo.render quote a context = (Throw e, a).
Proof.
  intros Hc Hg He. unfold Demo.render.
  destruct (Demo.columns a); [contradiction |]. rewrite Hg, He. reflexivity.
Qed.



Lemma compile_all_or_nothing_witness :
  result_of (joinMonster Demo.env Demo.info VNull
               (Demo.returns (VArray [Demo.user_row] []))
               (Some (Demo.options_for (VStr "oracle"))) Demo.empty_store)
  = Throw (module_not_found "./stringifiers/oracle").
Proof.
  apply (compile_all_or_nothing Demo.env
           (fresh (dom (asts Demo.empty_store))) VNull (Demo.options_for (VStr "oracle"))
           (store_of (call EvQueryASTToSqlAST
                        (queryASTToSqlAST Demo.env Demo.info (Demo.options_for (VStr "oracle")))
                        Demo.empty_store))).
  - vm_compute. reflexivity.
  - vm_compute. reflexivity.
Defined.

Lemma direct_return_skips_postProcess_witness :
  handleUserDbCall Demo.env (Demo.returns (VArray [Demo.user_row] []))
    (VStr "SELECT 1") (VObject [("email", VStr "email"); ("id", VStr "id")])
    1%positive (Demo.user_store None)
  = (Ok (Resolved Demo.user_row), Demo.user_store None,
     [EvDbCall (VStr "SELECT 1") false; EvValidate (VArray [Demo.user_row] []);
      EvNest (VArray [Demo.user_row] [])
             (VObject [("email", VStr "email"); ("id", VStr "id")])]).
Proof.
  apply (direct_return_skips_postProcess Demo.env).
  - simpl. lia.
  - reflexivity.
  - reflexivity.
  - reflexivity.
Defined.

Lemma demo_stringifier_forbidden :
  Demo.stringifier "`" 1%positive VNull (Demo.user_store (Some Demo.forbidden))
  = (Throw Demo.not_authorised, Demo.user_store (Some Demo.forbidden)).
Proof.
  unfold Demo.stringifier.
  rewrite (on_ast_run _ _ _ (Demo.user_node (Some Demo.forbidden)));
    [| apply with_objects_ast].
  rewrite (demo_render_lets_generator_throw "`" _ VNull Demo.forbidden Demo.not_authorised);
    [| discriminate | reflexivity | reflexivity].
  simpl. f_equal.
Qed.

(** A [where] generator handed to [getNode] refuses: [getNode] throws what
    the generator threw. *)
Lemma generator_exception_propagates_witness :
  Demo.forbidden (VStr "`a`") (VObject [("id", VNum 7)]) VNull = Throw Demo.not_authorised /\
  getNode Demo.env "User" Demo.info VNull (Some Demo.forbidden) (Demo.returns VNull)
    (Some (Demo.options_for (VStr "mysql"))) Demo.empty_store
  = (Throw Demo.not_authorised, Demo.user_store (Some Demo.forbidden),
     [EvNewNamespace 1%positive; EvNewObject 1%positive;
      EvGetGraphQLType 1%positive 1%positive; EvPrune 1%positive 1%positive;
      EvDebug "SQL_AST"; EvRequire "./stringifiers/mysql";
      EvStringify "./stringifiers/mysql" 1%positive]).
Proof.
  split; [reflexivity |].
  destruct (generator_exception_propagates Demo.env 1%positive VNull
              (Demo.options_for (VStr "mysql")) (Demo.user_store (Some Demo.forbidden))
              (Demo.user_store (Some Demo.forbidden))
              {| default_export := Some (Demo.stringifier "`") |} (Demo.stringifier "`")
              Demo.not_authorised eq_refl eq_refl demo_stringifier_forbidden)
    as (_ & _ & Hnode).
  apply (Hnode "User" Demo.info (Some Demo.forbidden) (Demo.returns VNull)
           Demo.empty_store (VStr "User") (VStr "user") Demo.user_query
           (with_objects 1%positive 1%positive
              {| Demo.table := "user"; Demo.alias := "a";
                 Demo.columns := ["id"; "email"; "id"];
                 Demo.condition := Some Demo.forbidden;
                 Demo.arguments := VObject [("id", VNum 7)] |}
              {| Demo.minified := true; Demo.allocated := 1 |} Demo.empty_store)
           1%positive).
  - reflexivity.
  - reflexivity.
  - reflexivity.
  - vm_compute. reflexivity.
  - vm_compute. reflexivity.
  - vm_compute. reflexivity.
  - vm_compute. reflexivity.
Defined.




Lemma falsy_dialect_selects_standard_witness :
  truthy (VNum 0) = false /\
  selected_path (Demo.options_for (VNum 0)) = "./stringifiers/standard".
Proof.
  split; [reflexivity |].
  destruct (falsy_dialect_selects_standard Demo.env 1%positive VNull
              (Demo.options_for (VNum 0)) (Demo.user_store None)) as [H _].
  - reflexivity.
  - exact H.
Defined.


Lemma callback_error_rejects_witness :
  truthy Demo.connection_lost = true /\
  handleUserDbCall Demo.env (Demo.calls_back Async Demo.connection_lost VUndefined)
    (VStr "SELECT 1") (VObject []) 1%positive (Demo.user_store None)
  = (Ok (Rejected Demo.connection_lost), Demo.user_store None,
     [EvDbCall (VStr "SELECT 1") true]).
Proof.
  split; [reflexivity |].
  apply (callback_error_rejects Demo.env) with (when := Async) (rows := VUndefined);
    reflexivity.
Defined.

(** * Further properties of [index.js] *)

Lemma absent_from_all (p : event -> bool) (t : list event) :
  (forall ev, In ev t -> p ev = false) -> absent p t.
Proof.
  unfold absent. induction t as [| ev t IH]; simpl; [reflexivity |].
  intros H. rewrite (H ev) by auto. simpl. apply IH. intros ev' Hin. apply H. auto.
Qed.

Lemma lookup_assign_same (props : list (string * value)) (key : string) (v : value) :
  lookup_prop (assign_prop props key v) key = v.
Proof.
  induction props as [| [k old] props IH]; simpl.
  - rewrite String.eqb_refl. reflexivity.
  - destruct (String.eqb k key) eqn:Hk; simpl; rewrite Hk; [reflexivity | exact IH].
Qed.

Lemma lookup_assign_other (props : list (string * value)) (key other : string) (v : value) :
  other <> key ->
  lookup_prop (assign_prop props key v) other = lookup_prop props other.
Proof.
  intros Hne. induction props as [| [k old] props IH]; simpl.
  - destruct (String.eqb key other) eqn:Hk; [| reflexivity].
    apply String.eqb_eq in Hk. congruence.
  - destruct (String.eqb k key) eqn:Hk; simpl.
    + apply String.eqb_eq in Hk. subst k.
      destruct (String.eqb key other) eqn:Hk2; [| reflexivity].
      apply String.eqb_eq in Hk2. congruence.
    + destruct (String.eqb k other); [reflexivity | exact IH].
Qed.

(** Assigning a property to an object: the property reads back, and every
    other property reads as before. *)
Lemma set_prop_read (obj tagged : value) (key : string) (v : value) :
  key <> "length" -> key <> "name" -> key <> "message" ->
  set_prop obj key v = Ok tagged ->
  is_object obj = true /\ is_object tagged = true /\
  read tagged key = v /\
  forall other, other <> key -> read tagged other = read obj other.
Proof.
  intros Hl Hn Hm.
  assert (El : String.eqb key "length" = false) by (apply String.eqb_neq; exact Hl).
  assert (En : String.eqb key "name" = false) by (apply String.eqb_neq; exact Hn).
  assert (Em : String.eqb key "message" = false) by (apply String.eqb_neq; exact Hm).
  destruct obj; simpl; try discriminate; intros H; injection H as <-; simpl.
  - rewrite El, lookup_assign_same. repeat split; try reflexivity.
    intros other Ho. destruct (String.eqb other "length"); [reflexivity |].
    apply lookup_assign_other. exact Ho.
  - rewrite lookup_assign_same. repeat split; try reflexivity.
    intros other Ho. apply lookup_assign_other. exact Ho.
  - rewrite En, Em, lookup_assign_same. repeat split; try reflexivity.
    intros other Ho. destruct (String.eqb other "name"); [reflexivity |].
    destruct (String.eqb other "message"); [reflexivity |].
    apply lookup_assign_other. exact Ho.
Qed.

Section TransportFlow.
Context {Ast Ns : Type} (E : Env Ast Ns).

(** What the statements run on the rows can record. *)
Lemma hydrate_events (label : string) (v shape : value) (sqlAST : loc)
    (s : store Ast Ns) (ev : event) :
  In ev (trace_of (hydrate E label v shape sqlAST s)) ->
  match ev with
  | EvValidate r => r = v
  | EvNest rows sh => sh = shape /\ validate E v = Ok rows
  | EvPostProcess nested la =>
      la = sqlAST /\ exists rows, validate E v = Ok rows /\ nest E rows shape = Ok nested
  | EvDebug _ => True
  | _ => False
  end.
Proof.
  unfold hydrate, bind, tell, lift, call, debug, trace_of.
  destruct (validate E v) as [rows | e] eqn:Hval; simpl.
  2:{ intros [<- | []]. reflexivity. }
  destruct (slice_0_8 rows) as [sample | e]; simpl.
  2:{ intros [<- | []]. reflexivity. }
  destruct (get_prop rows "length") as [len | e]; simpl.
  2:{ intros [<- | [<- | []]]; [reflexivity | exact I]. }
  destruct (nest E rows shape) as [nested | e] eqn:Hnest; simpl.
  2:{ intros [<- | [<- | [<- | [<- | []]]]]; try reflexivity; try exact I. auto. }
  destruct (postProcess E nested sqlAST s) as [r s1]. simpl.
  intros [<- | [<- | [<- | [<- | [<- | []]]]]]; try reflexivity; try exact I; eauto.
Qed.

Lemma settle_trace (body : M Ast Ns value) (s : store Ast Ns) :
  trace_of (settle body s) = trace_of (body s).
Proof. unfold settle, trace_of. destruct (body s) as [[[v | e] s1] t]; reflexivity. Qed.

Lemma detached_trace (body : M Ast Ns value) (s : store Ast Ns) :
  trace_of (detached body s)
  = match result_of (body s) with
    | Ok _ => trace_of (body s)
    | Throw e => (trace_of (body s) ++ [EvUncaught e])%list
    end.
Proof.
  unfold detached, trace_of, result_of. destruct (body s) as [[[v | e] s1] t]; reflexivity.
Qed.

(** What a run of [handleUserDbCall] can record: first the call of the
    transport, with the SQL text it was given and in the mode the declared
    parameter count selects; then only events of the hydration, on the shape
    and the SQL AST it was given. *)
Lemma handle_events (dbCall : DbCall) (text shape : value) (sqlAST : loc)
    (s : store Ast Ns) :
  exists rest,
    trace_of (handleUserDbCall E dbCall text shape sqlAST s)
    = EvDbCall text (Nat.eqb (db_length dbCall) 2) :: rest /\
    forall ev,
      In ev rest ->
      match ev with
      | EvNest _ sh => sh = shape
      | EvPostProcess nested la => la = sqlAST /\ exists rows, nest E rows shape = Ok nested
      | EvValidate _ | EvDebug _ | EvUncaught _ => True
      | _ => False
      end.
Proof.
  assert (Hhyd : forall label rows ev,
             In ev (trace_of (hydrate E label rows shape sqlAST s)) ->
             match ev with
             | EvNest _ sh => sh = shape
             | EvPostProcess nested la =>
                 la = sqlAST /\ exists rows, nest E rows shape = Ok nested
             | EvValidate _ | EvDebug _ | EvUncaught _ => True
             | _ => False
             end).
  { intros label rows ev Hin. pose proof (hydrate_events label rows shape sqlAST s ev Hin) as H.
    destruct ev; try exact I; try contradiction.
    - destruct H as [H _]. exact H.
    - destruct H as (H & r & _ & Hn). eauto. }
  unfold handleUserDbCall, bind, tell.
  destruct (Nat.eqb (db_length dbCall) 2).
  - destruct (with_callback dbCall text) as [e | when err rows |].
    + exists []. split; [reflexivity | intros ev []].
    + destruct (truthy err); [exists []; split; [reflexivity | intros ev []] |].
      destruct when.
      * exists (trace_of (hydrate E "RAW_DATA" rows shape sqlAST s)). split.
        -- rewrite <- (settle_trace (hydrate E "RAW_DATA" rows shape sqlAST) s).
           unfold trace_of. destruct (settle _ s) as [[r s1] t]. reflexivity.
        -- apply Hhyd.
      * exists (trace_of (detached (hydrate E "RAW_DATA" rows shape sqlAST) s)). split.
        -- unfold trace_of. destruct (detached _ s) as [[r s1] t]. reflexivity.
        -- rewrite detached_trace. intros ev Hin.
           destruct (result_of (hydrate E "RAW_DATA" rows shape sqlAST s));
             [apply (Hhyd _ _ _ Hin) |].
           apply in_app_or in Hin. destruct Hin as [Hin | [<- | []]];
             [apply (Hhyd _ _ _ Hin) | exact I].
    + exists []. split; [reflexivity | intros ev []].
  - destruct (without_callback dbCall text) as [e | [rows | e |] | v].
    + exists []. split; [reflexivity | intros ev []].
    + exists (trace_of (hydrate E "RAW DATA" rows shape sqlAST s)). split.
      * rewrite <- (settle_trace (hydrate E "RAW DATA" rows shape sqlAST) s).
        unfold trace_of. destruct (settle _ s) as [[r s1] t]. reflexivity.
      * apply Hhyd.
    + exists []. split; [reflexivity | intros ev []].
    + exists []. split; [reflexivity | intros ev []].
    + unfold lift, call, ret, trace_of.
      destruct (get_prop v "then") as [p | e]; simpl;
        [| exists []; split; [reflexivity | intros ev []]].
      destruct (validate E v) as [rows | e]; simpl;
        [| eexists; split; [reflexivity | intros ev [<- | []]; exact I]].
      destruct (nest E rows shape) as [nested | e]; simpl;
        (eexists; split; [reflexivity | intros ev [<- | [<- | []]]; [exact I | reflexivity]]).
Qed.

Lemma handle_calls_transport_once (dbCall : DbCall) (text shape : value) (sqlAST : loc)
    (s : store Ast Ns) :
  occurrences is_db_call (trace_of (handleUserDbCall E dbCall text shape sqlAST s)) = 1.
Proof.
  destruct (handle_events dbCall text shape sqlAST s) as (rest & -> & Hrest).
  simpl. rewrite occurrences_absent; [reflexivity |].
  apply absent_from_all. intros ev Hin. specialize (Hrest ev Hin).
  destruct ev; try reflexivity. contradiction.
Qed.
End TransportFlow.

Section CompileFlow.
Context {Ast Ns : Type} (E : Env Ast Ns).

Lemma compile_events (sqlAST : loc) (context : value) (options : Options)
    (s : store Ast Ns) (ev : event) :
  In ev (trace_of (compileSqlAST E sqlAST context options s)) ->
  match ev with
  | EvDebug _ | EvRequire _ => True
  | EvStringify _ la | EvDefineShape la => la = sqlAST
  | _ => False
  end.
Proof.
  rewrite compile_cases. cbv zeta. unfold trace_of.
  destruct (require E _) as [m |];
    [destruct (default_export m) as [f |];
     [destruct (f sqlAST context s) as [[text | e] s1];
      [destruct (defineObjectShape E sqlAST s1) as [[shape | e] s2] | ] | ] | ];
    intros Hin; simpl in Hin;
    repeat (destruct Hin as [<- | Hin]; [first [reflexivity | exact I] |]);
    contradiction.
Qed.

(** X12. One run of [compileSqlAST] loads exactly one module, calls the
    stringifier at most once and the shape builder at most once, the shape
    builder only after the stringifier, and both exactly once when it
    returns; it calls nothing else. *)
Theorem compile_call_discipline (sqlAST : loc) (context : value) (options : Options)
    (s : store Ast Ns) :
  occurrences is_require (trace_of (compileSqlAST E sqlAST context options s)) = 1 /\
  occurrences is_stringify (trace_of (compileSqlAST E sqlAST context options s)) <= 1 /\
  occurrences is_define_shape (trace_of (compileSqlAST E sqlAST context options s)) <= 1 /\
  guarded_by is_stringify is_define_shape
    (trace_of (compileSqlAST E sqlAST context options s)) = true /\
  (forall c,
      result_of (compileSqlAST E sqlAST context options s) = Ok c ->
      occurrences is_stringify (trace_of (compileSqlAST E sqlAST context options s)) = 1 /\
      occurrences is_define_shape (trace_of (compileSqlAST E sqlAST context options s)) = 1) /\
  forallb compile_event (trace_of (compileSqlAST E sqlAST context options s)) = true.
Proof.
  rewrite compile_cases. cbv zeta. unfold trace_of, result_of.
  destruct (require E _) as [m |];
    [destruct (default_export m) as [f |];
     [destruct (f sqlAST context s) as [[text | e] s1];
      [destruct (defineObjectShape E sqlAST s1) as [[shape | e] s2] | ] | ] | ];
    simpl;
    (split; [reflexivity | split; [lia | split; [lia | split; [reflexivity | split]]]]);
    try reflexivity; intros c' H; first [discriminate | split; reflexivity].
Qed.

Lemma compile_marks_success (sqlAST : loc) (context : value) (options : Options)
    (s : store Ast Ns) :
  In (EvDebug "SHAPE_DEFINITION") (trace_of (compileSqlAST E sqlAST context options s)) ->
  exists c, result_of (compileSqlAST E sqlAST context options s) = Ok c.
Proof.
  rewrite compile_cases. cbv zeta. unfold trace_of, result_of.
  destruct (require E _) as [m |];
    [destruct (default_export m) as [f |];
     [destruct (f sqlAST context s) as [[text | e] s1];
      [destruct (defineObjectShape E sqlAST s1) as [[shape | e] s2] | ] | ] | ];
    simpl; intros Hin; try (eexists; reflexivity);
    repeat (destruct Hin as [Hin | Hin]; [discriminate |]); contradiction.
Qed.

(** X1. When the compile step returns a falsy SQL text (the empty string,
    [undefined]), [joinMonster] resolves to the empty object [{}] at once:
    the transport is not called and nothing is hydrated. *)
Theorem joinMonster_without_sql (resolveInfo : ResolveInfo) (context : value)
    (dbCall : DbCall) (options : option Options) (s s0 s1 : store Ast Ns)
    (sqlAST : loc) (c : Compiled) (t : list event) :
  queryASTToSqlAST E resolveInfo (default no_options options) s = (Ok sqlAST, s0) ->
  compileSqlAST E sqlAST context (default no_options options) s0 = (Ok c, s1, t) ->
  truthy (sql c) = false ->
  joinMonster E resolveInfo context dbCall options s
  = (Ok (Resolved (VObject [])), s1, EvQueryASTToSqlAST :: t) /\
  absent is_db_call (trace_of (joinMonster E resolveInfo context dbCall options s)) /\
  absent is_nest (trace_of (joinMonster E resolveInfo context dbCall options s)).
Proof.
  intros Hq Hc Hsql.
  assert (Hrun : joinMonster E resolveInfo context dbCall options s
                 = (Ok (Resolved (VObject [])), s1, EvQueryASTToSqlAST :: t)).
  { rewrite joinMonster_cases. cbv zeta. rewrite Hq, Hc, Hsql, app_nil_r. reflexivity. }
  rewrite Hrun. split; [reflexivity |].
  pose proof (compile_trace_kind E sqlAST context (default no_options options) s0) as Hk.
  rewrite Hc in Hk. unfold trace_of in *. simpl in Hk.
  split.
  - change (absent is_db_call t). by_kind Hk.
  - change (absent is_nest t). by_kind Hk.
Qed.

(** X2. [getNode] has no such shortcut: in every run in which the compile
    step returned, the transport is called, once, whatever the SQL text. *)
Theorem getNode_always_queries (typeName : string) (resolveInfo : ResolveInfo)
    (context : value) (where_ : option WhereFn) (dbCall : DbCall)
    (options : option Options) (s : store Ast Ns) :
  In (EvDebug "SHAPE_DEFINITION")
     (trace_of (getNode E typeName resolveInfo context where_ dbCall options s)) ->
  occurrences is_db_call
    (trace_of (getNode E typeName resolveInfo context where_ dbCall options s)) = 1.
Proof.
  rewrite getNode_cases. cbv zeta.
  destruct (get_prop _ "name") as [type_name | e]; [| intros []].
  destruct (toLowerCase type_name) as [lowered | e]; [| intros []].
  set (ln := fresh (dom (namespaces s))). set (la := fresh (dom (asts s))).
  assert (Hno : forall rest,
             In (EvDebug "SHAPE_DEFINITION")
                (EvNewNamespace ln :: EvNewObject la :: EvGetGraphQLType la ln ::
                 EvPrune la ln :: rest) ->
             In (EvDebug "SHAPE_DEFINITION") rest).
  { intros rest [H | [H | [H | [H | H]]]]; try discriminate. exact H. }
  destruct (get_index0 _) as [fieldNode | e].
  2:{ unfold trace_of. simpl. intros [H | [H | []]]; discriminate. }
  destruct (getGraphQLType E _ _ _ _ _ _ _ _) as [[[] | e] s3].
  2:{ unfold trace_of. simpl. intros [H | [H | [H | []]]]; discriminate. }
  destruct (pruneDuplicateSqlDeps E _ _ s3) as [[[] | e] s4].
  2:{ unfold trace_of. simpl. intros [H | [H | [H | [H | []]]]]; discriminate. }
  pose proof (compile_trace_kind E la context (default no_options options) s4) as Hk.
  pose proof (compile_marks_success la context (default no_options options) s4) as Hm.
  unfold trace_of, result_of in Hk, Hm.
  destruct (compileSqlAST E la context _ s4) as [[[c | e] s5] t]; simpl in Hk, Hm.
  2:{ unfold trace_of. simpl. intros Hin. apply Hno in Hin.
      destruct (Hm Hin) as [c Hc]. discriminate. }
  pose proof (handle_calls_transport_once E dbCall (sql c) (shapeDefinition c) la s5) as Hh.
  unfold trace_of in Hh.
  destruct (handleUserDbCall E dbCall _ _ _ s5) as [[r s6] t2]. simpl in Hh.
  intros _. unfold trace_of. simpl. rewrite occurrences_app, Hh.
  rewrite occurrences_absent; [reflexivity | by_kind Hk].
Qed.

(** X3. The transport is never called twice: exactly once in a run of
    [handleUserDbCall], at most once in a run of [joinMonster] or of
    [getNode], whatever the transport does. *)
Theorem transport_is_called_at_most_once (typeName : string) (resolveInfo : ResolveInfo)
    (context : value) (where_ : option WhereFn) (dbCall : DbCall)
    (options : option Options) (text shape : value) (sqlAST : loc) (s : store Ast Ns) :
  occurrences is_db_call (trace_of (handleUserDbCall E dbCall text shape sqlAST s)) = 1 /\
  occurrences is_db_call (trace_of (joinMonster E resolveInfo context dbCall options s)) <= 1 /\
  occurrences is_db_call
    (trace_of (getNode E typeName resolveInfo context where_ dbCall options s)) <= 1.
Proof.
  split; [apply handle_calls_transport_once |]. split.
  - rewrite joinMonster_cases. cbv zeta.
    destruct (queryASTToSqlAST E resolveInfo _ s) as [[ast | e] s0]; [| simpl; lia].
    pose proof (compile_trace_kind E ast context (default no_options options) s0) as Hk.
    unfold trace_of in Hk.
    destruct (compileSqlAST E ast context _ s0) as [[[c | e] s1] t]; simpl in Hk.
    2:{ unfold trace_of. simpl. rewrite occurrences_absent; [lia | by_kind Hk]. }
    destruct (truthy (sql c)).
    + pose proof (handle_calls_transport_once E dbCall (sql c) (shapeDefinition c) ast s1)
        as Hh.
      unfold trace_of in Hh.
      destruct (handleUserDbCall E dbCall _ _ _ s1) as [[r s2] t2]. simpl in Hh.
      unfold trace_of. simpl. rewrite occurrences_app, Hh.
      rewrite occurrences_absent; [lia | by_kind Hk].
    + unfold trace_of. simpl. rewrite app_nil_r.
      rewrite occurrences_absent; [lia | by_kind Hk].
  - rewrite getNode_cases. cbv zeta.
    destruct (get_prop _ "name") as [type_name | e]; [| simpl; lia].
    destruct (toLowerCase type_name) as [lowered | e]; [| simpl; lia].
    destruct (get_index0 _) as [fieldNode | e]; [| simpl; lia].
    destruct (getGraphQLType E _ _ _ _ _ _ _ _) as [[[] | e] s3]; [| simpl; lia].
    destruct (pruneDuplicateSqlDeps E _ _ s3) as [[[] | e] s4]; [| simpl; lia].
    pose proof (compile_trace_kind E (fresh (dom (asts s))) context
                  (default no_options options) s4) as Hk.
    unfold trace_of in Hk.
    destruct (compileSqlAST E _ context _ s4) as [[[c | e] s5] t]; simpl in Hk.
    2:{ unfold trace_of. simpl. rewrite occurrences_absent; [lia | by_kind Hk]. }
    pose proof (handle_calls_transport_once E dbCall (sql c) (shapeDefinition c)
                  (fresh (dom (asts s))) s5) as Hh.
    unfold trace_of in Hh.
    destruct (handleUserDbCall E dbCall _ _ _ s5) as [[r s6] t2]. simpl in Hh.
    unfold trace_of. simpl. rewrite occurrences_app, Hh.
    rewrite occurrences_absent; [lia | by_kind Hk].
Qed.

(** X4. What [joinMonster] hands on is what it received: the transport
    gets the SQL text the compile step returned (a truthy one), in the mode
    selected by its parameter count; [nest] gets the shape definition the
    compile step returned; and the stringifier, the shape builder and the
    post-processor get the SQL AST that [queryASTToSqlAST] returned. *)
Theorem joinMonster_passes_compiled_output (resolveInfo : ResolveInfo) (context : value)
    (dbCall : DbCall) (options : option Options) (s : store Ast Ns) (ev : event) :
  In ev (trace_of (joinMonster E resolveInfo context dbCall options s)) ->
  match ev with
  | EvDbCall text mode =>
      exists sqlAST s0 c,
        queryASTToSqlAST E resolveInfo (default no_options options) s = (Ok sqlAST, s0) /\
        result_of (compileSqlAST E sqlAST context (default no_options options) s0) = Ok c /\
        text = sql c /\ truthy text = true /\ mode = Nat.eqb (db_length dbCall) 2
  | EvNest _ shape =>
      exists sqlAST s0 c,
        queryASTToSqlAST E resolveInfo (default no_options options) s = (Ok sqlAST, s0) /\
        result_of (compileSqlAST E sqlAST context (default no_options options) s0) = Ok c /\
        shape = shapeDefinition c
  | EvStringify _ la | EvDefineShape la | EvPostProcess _ la =>
      fst (queryASTToSqlAST E resolveInfo (default no_options options) s) = Ok la
  | EvNewNamespace _ | EvNewObject _ | EvGetGraphQLType _ _ | EvPrune _ _ => False
  | _ => True
  end.
Proof.
  rewrite joinMonster_cases. cbv zeta.
  destruct (queryASTToSqlAST E resolveInfo _ s) as [[ast | e] s0] eqn:Hq.
  2:{ intros [<- | []]. exact I. }
  pose proof (compile_events ast context (default no_options options) s0 ev) as Hce.
  unfold trace_of, result_of in *.
  destruct (compileSqlAST E ast context _ s0) as [[[c | e] s1] t] eqn:Hc; simpl in Hce.
  2:{ simpl. intros [<- | Hin]; [exact I |]. specialize (Hce Hin).
      destruct ev; try exact I; try contradiction; simpl; congruence. }
  assert (Hcompile : In ev t ->
            match ev with
            | EvDbCall text mode =>
                exists sqlAST s0' c',
                  (Ok ast, s0) = (Ok sqlAST, s0') /\
                  fst (fst (compileSqlAST E sqlAST context (default no_options options) s0'))
                  = Ok c' /\
                  text = sql c' /\ truthy text = true /\ mode = Nat.eqb (db_length dbCall) 2
            | EvNest _ shape =>
                exists sqlAST s0' c',
                  (Ok ast, s0) = (Ok sqlAST, s0') /\
                  fst (fst (compileSqlAST E sqlAST context (default no_options options) s0'))
                  = Ok c' /\
                  shape = shapeDefinition c'
            | EvStringify _ la | EvDefineShape la | EvPostProcess _ la =>
                fst (@pair (result loc) (store Ast Ns) (Ok ast) s0) = Ok la
            | EvNewNamespace _ | EvNewObject _ | EvGetGraphQLType _ _ | EvPrune _ _ => False
            | _ => True
            end).
  { intros Hin. specialize (Hce Hin).
    destruct ev; try exact I; try contradiction; simpl; congruence. }
  destruct (truthy (sql c)) eqn:Hsql.
  2:{ simpl. rewrite app_nil_r. intros [<- | Hin]; [exact I | apply Hcompile; exact Hin]. }
  destruct (handle_events E dbCall (sql c) (shapeDefinition c) ast s1) as (rest & Ht & Hrest).
  unfold trace_of in Ht.
  destruct (handleUserDbCall E dbCall _ _ _ s1) as [[r s2] t2]. simpl in Ht. subst t2.
  simpl. intros [<- | Hin]; [exact I |].
  apply in_app_or in Hin. destruct Hin as [Hin | [<- | Hin]].
  - apply Hcompile. exact Hin.
  - exists ast, s0, c. rewrite Hc. simpl. auto.
  - specialize (Hrest ev Hin). destruct ev; try exact I; try contradiction.
    + exists ast, s0, c. rewrite Hc. simpl. auto.
    + simpl. destruct Hrest as [-> _]. reflexivity.
Qed.

(** X5. An error that occurs before the transport is reached is thrown to
    the caller, never delivered as a rejected promise: a run of
    [joinMonster] in which the transport was not called threw, or resolved
    to [{}] for want of SQL; a run of [getNode] in which the transport was
    not called threw. *)
Theorem errors_before_transport_are_thrown (typeName : string) (resolveInfo : ResolveInfo)
    (context : value) (where_ : option WhereFn) (dbCall : DbCall)
    (options : option Options) (s : store Ast Ns) :
  (absent is_db_call (trace_of (joinMonster E resolveInfo context dbCall options s)) ->
   (exists e, result_of (joinMonster E resolveInfo context dbCall options s) = Throw e) \/
   result_of (joinMonster E resolveInfo context dbCall options s)
   = Ok (Resolved (VObject []))) /\
  (absent is_db_call
     (trace_of (getNode E typeName resolveInfo context where_ dbCall options s)) ->
   exists e,
     result_of (getNode E typeName resolveInfo context where_ dbCall options s) = Throw e).
Proof.
  assert (Hcalled : forall text shape la s' (rest : list event),
             absent is_db_call
               (rest ++ trace_of (handleUserDbCall E dbCall text shape la s'))%list -> False).
  { intros text shape la s' rest. unfold absent. rewrite existsb_app.
    destruct (handle_events E dbCall text shape la s') as (tl & -> & _). simpl.
    rewrite orb_true_r. discriminate. }
  split.
  - rewrite joinMonster_cases. cbv zeta. unfold result_of.
    destruct (queryASTToSqlAST E resolveInfo _ s) as [[ast | e] s0]; [| simpl; eauto].
    destruct (compileSqlAST E ast context _ s0) as [[[c | e] s1] t]; [| simpl; eauto].
    destruct (truthy (sql c)); [| simpl; auto].
    pose proof (Hcalled (sql c) (shapeDefinition c) ast s1 (EvQueryASTToSqlAST :: t)) as H.
    unfold trace_of in *.
    destruct (handleUserDbCall E dbCall _ _ _ s1) as [[r s2] t2]. simpl in *.
    intros Habs. destruct (H Habs).
  - rewrite getNode_cases. cbv zeta. unfold result_of.
    destruct (get_prop _ "name") as [type_name | e]; [| simpl; eauto].
    destruct (toLowerCase type_name) as [lowered | e]; [| simpl; eauto].
    destruct (get_index0 _) as [fieldNode | e]; [| simpl; eauto].
    destruct (getGraphQLType E _ _ _ _ _ _ _ _) as [[[] | e] s3]; [| simpl; eauto].
    destruct (pruneDuplicateSqlDeps E _ _ s3) as [[[] | e] s4]; [| simpl; eauto].
    destruct (compileSqlAST E _ context _ s4) as [[[c | e] s5] t]; [| simpl; eauto].
    pose proof (Hcalled (sql c) (shapeDefinition c) (fresh (dom (asts s))) s5
                  (EvNewNamespace (fresh (dom (namespaces s)))
                   :: EvNewObject (fresh (dom (asts s)))
                   :: EvGetGraphQLType (fresh (dom (asts s))) (fresh (dom (namespaces s)))
                   :: EvPrune (fresh (dom (asts s))) (fresh (dom (namespaces s))) :: t)) as H.
    unfold trace_of in *.
    destruct (handleUserDbCall E dbCall _ _ _ s5) as [[r s6] t2]. simpl in *.
    intros Habs. destruct (H Habs).
Qed.
End CompileFlow.

Section NodeEntry.
Context {Ast Ns : Type} (E : Env Ast Ns).

(** X6. When the promise of [getNode] resolves, it resolves to an object
    that carries the GraphQL type in its property [__type__] and otherwise
    reads like the object the transport handling resolved to.  When that
    handling rejects, [getNode] rejects with the same value; when it resolves
    to something that is not an object ([null] for a node that was not
    found), [getNode] rejects with a [TypeError]. *)
Theorem getNode_attaches_type (typeName : string) (resolveInfo : ResolveInfo)
    (context : value) (where_ : option WhereFn) (dbCall : DbCall)
    (options : option Options) (s : store Ast Ns) :
  (forall v,
      result_of (getNode E typeName resolveInfo context where_ dbCall options s)
      = Ok (Resolved v) ->
      is_object v = true /\
      read v "__type__" = schema_getType resolveInfo typeName /\
      exists obj text shape la s5,
        result_of (handleUserDbCall E dbCall text shape la s5) = Ok (Resolved obj) /\
        is_object obj = true /\
        forall key, key <> "__type__" -> read v key = read obj key) /\
  (forall e,
      result_of (getNode E typeName resolveInfo context where_ dbCall options s)
      = Ok (Rejected e) ->
      exists text shape la s5,
        result_of (handleUserDbCall E dbCall text shape la s5) = Ok (Rejected e) \/
        exists obj,
          result_of (handleUserDbCall E dbCall text shape la s5) = Ok (Resolved obj) /\
          is_object obj = false /\
          e = TypeError "Cannot create property __type__").
Proof.
  rewrite getNode_cases. cbv zeta. unfold result_of at 1 3.
  destruct (get_prop _ "name") as [type_name | e0]; [| split; intros ? H; discriminate].
  destruct (toLowerCase type_name) as [lowered | e0]; [| split; intros ? H; discriminate].
  destruct (get_index0 _) as [fieldNode | e0]; [| split; intros ? H; discriminate].
  destruct (getGraphQLType E _ _ _ _ _ _ _ _) as [[[] | e0] s3];
    [| split; intros ? H; discriminate].
  destruct (pruneDuplicateSqlDeps E _ _ s3) as [[[] | e0] s4];
    [| split; intros ? H; discriminate].
  destruct (compileSqlAST E _ context _ s4) as [[[c | e0] s5] t];
    [| split; intros ? H; discriminate].
  destruct (handleUserDbCall E dbCall (sql c) (shapeDefinition c) (fresh (dom (asts s))) s5)
    as [[r s6] t2] eqn:Hh.
  assert (Hr : result_of (handleUserDbCall E dbCall (sql c) (shapeDefinition c)
                            (fresh (dom (asts s))) s5) = r)
    by (rewrite Hh; reflexivity).
  simpl. destruct r as [[obj | e0 |] | e0]; simpl.
  - destruct (set_prop obj "__type__" (schema_getType resolveInfo typeName))
      as [tagged | e1] eqn:Hset.
    + split; [| intros ? H; discriminate].
      intros v H. injection H as <-.
      destruct (set_prop_read obj tagged "__type__" _ ltac:(discriminate)
                  ltac:(discriminate) ltac:(discriminate) Hset) as (Ho & Ht & Hsame & Hother).
      split; [exact Ht |]. split; [exact Hsame |].
      exists obj, (sql c), (shapeDefinition c), (fresh (dom (asts s))), s5. auto.
    + split; [intros ? H; discriminate |].
      intros e H. injection H as <-.
      exists (sql c), (shapeDefinition c), (fresh (dom (asts s))), s5. right.
      exists obj. split; [exact Hr |].
      destruct obj; simpl in Hset; try discriminate; injection Hset as <-; auto.
  - split; [intros ? H; discriminate |].
    intros e H. injection H as <-.
    exists (sql c), (shapeDefinition c), (fresh (dom (asts s))), s5. left. exact Hr.
  - split; intros ? H; discriminate.
  - split; intros ? H; discriminate.
Qed.

(** X7. A type name the schema does not know, or a type whose [name] is not
    a string, makes [getNode] throw a [TypeError] synchronously, before it
    creates anything or calls anything. *)
Theorem getNode_unknown_type (typeName : string) (resolveInfo : ResolveInfo)
    (context : value) (where_ : option WhereFn) (dbCall : DbCall)
    (options : option Options) (s : store Ast Ns) :
  (forall n, get_prop (schema_getType resolveInfo typeName) "name" <> Ok (VStr n)) ->
  exists message,
    getNode E typeName resolveInfo context where_ dbCall options s
    = (Throw (TypeError message), s, []).
Proof.
  intros Hname. rewrite getNode_cases. cbv zeta.
  unfold get_prop in *.
  destruct (nullish (schema_getType resolveInfo typeName)); [eexists; reflexivity |].
  destruct (read (schema_getType resolveInfo typeName) "name") as [| | b | n | | str | | |];
    simpl; try (eexists; reflexivity).
  destruct (Hname str). reflexivity.
Qed.

(** X8. [getNode] takes the field nodes from [resolveInfo.fieldNodes] and
    falls back on [resolveInfo.fieldASTs] only when that is falsy.  When
    neither holds anything it throws a [TypeError] synchronously, having
    created the namespace and the SQL AST but called no collaborator. *)
Theorem getNode_field_nodes (typeName : string) (resolveInfo : ResolveInfo)
    (context : value) (where_ : option WhereFn) (dbCall : DbCall)
    (options : option Options) (s : store Ast Ns) :
  (truthy (fieldNodes resolveInfo) = true ->
   forall other,
     getNode E typeName (with_fieldASTs other resolveInfo) context where_ dbCall options s
     = getNode E typeName resolveInfo context where_ dbCall options s) /\
  (truthy (fieldNodes resolveInfo) = false ->
   getNode E typeName resolveInfo context where_ dbCall options s
   = getNode E typeName (with_fieldNodes (fieldASTs resolveInfo) resolveInfo)
       context where_ dbCall options s) /\
  (truthy (fieldNodes resolveInfo) = false ->
   nullish (fieldASTs resolveInfo) = true ->
   forall n,
     get_prop (schema_getType resolveInfo typeName) "name" = Ok (VStr n) ->
     getNode E typeName resolveInfo context where_ dbCall options s
     = (Throw (TypeError "Cannot read property 0"),
        with_objects (fresh (dom (asts s))) (fresh (dom (namespaces s)))
          (empty_object E) (AliasNamespace E (minify (default no_options options))) s,
        [EvNewNamespace (fresh (dom (namespaces s))); EvNewObject (fresh (dom (asts s)))])).
Proof.
  split; [| split].
  - intros Ht other. unfold getNode, with_fieldASTs, js_or. simpl. rewrite Ht. reflexivity.
  - intros Hf. unfold getNode, with_fieldNodes, js_or. simpl. rewrite Hf.
    destruct (truthy (fieldASTs resolveInfo)); reflexivity.
  - intros Hf Hn n Hname. rewrite getNode_cases. cbv zeta. rewrite Hname. simpl.
    unfold js_or. rewrite Hf.
    destruct (fieldASTs resolveInfo); try discriminate; reflexivity.
Qed.
End NodeEntry.

Section TransportFailures.
Context {Ast Ns : Type} (E : Env Ast Ns).

Ltac run :=
  unfold handleUserDbCall, hydrate, settle, detached, bind, tell, lift, call, ret,
    throw, debug in *.

(** X9. A transport whose promise rejects makes the pipeline's promise
    reject with the same value; one that never answers (its promise never
    settles, or [done] is never called) leaves the pipeline's promise
    pending.  In each case nothing is validated, hydrated or post-processed,
    and nothing is retried. *)
Theorem transport_failure_passes_through (dbCall : DbCall) (text shape : value)
    (sqlAST : loc) (s : store Ast Ns) :
  (forall e,
      db_length dbCall <> 2 ->
      without_callback dbCall text = RetThenable (Rejects e) ->
      handleUserDbCall E dbCall text shape sqlAST s
      = (Ok (Rejected e), s, [EvDbCall text false])) /\
  (db_length dbCall <> 2 ->
   without_callback dbCall text = RetThenable NeverSettles ->
   handleUserDbCall E dbCall text shape sqlAST s = (Ok Pending, s, [EvDbCall text false])) /\
  (db_length dbCall = 2 ->
   with_callback dbCall text = CbSilent ->
   handleUserDbCall E dbCall text shape sqlAST s = (Ok Pending, s, [EvDbCall text true])).
Proof.
  split; [| split].
  - intros e Hlen Hret. apply Nat.eqb_neq in Hlen. run. rewrite Hlen, Hret. reflexivity.
  - intros Hlen Hret. apply Nat.eqb_neq in Hlen. run. rewrite Hlen, Hret. reflexivity.
  - intros Hlen Hcb. run. rewrite Hlen. simpl. rewrite Hcb. reflexivity.
Qed.

(** X10. A transport that throws instead of answering: in callback mode the
    pipeline's promise rejects with what it threw; in the other mode
    [handleUserDbCall] itself throws it, and so does [joinMonster], which
    then returns no promise at all. *)
Theorem transport_throw (dbCall : DbCall) (text shape : value) (sqlAST : loc)
    (s : store Ast Ns) (e : value) :
  (db_length dbCall = 2 ->
   with_callback dbCall text = CbThrows e ->
   handleUserDbCall E dbCall text shape sqlAST s
   = (Ok (Rejected e), s, [EvDbCall text true])) /\
  (db_length dbCall <> 2 ->
   without_callback dbCall text = RetThrows e ->
   handleUserDbCall E dbCall text shape sqlAST s = (Throw e, s, [EvDbCall text false])) /\
  (forall resolveInfo context options s0 s1 c t,
      db_length dbCall <> 2 ->
      queryASTToSqlAST E resolveInfo (default no_options options) s0 = (Ok sqlAST, s1) ->
      compileSqlAST E sqlAST context (default no_options options) s1 = (Ok c, s, t) ->
      truthy (sql c) = true ->
      without_callback dbCall (sql c) = RetThrows e ->
      joinMonster E resolveInfo context dbCall options s0
      = (Throw e, s, EvQueryASTToSqlAST :: (t ++ [EvDbCall (sql c) false])%list)).
Proof.
  split; [| split].
  - intros Hlen Hcb. run. rewrite Hlen. simpl. rewrite Hcb. reflexivity.
  - intros Hlen Hret. apply Nat.eqb_neq in Hlen. run. rewrite Hlen, Hret. reflexivity.
  - intros resolveInfo context options s0 s1 c t Hlen Hq Hc Hsql Hret.
    rewrite joinMonster_cases. cbv zeta. rewrite Hq, Hc, Hsql.
    apply Nat.eqb_neq in Hlen. run. rewrite Hlen, Hret. reflexivity.
Qed.

(** X11. When [nest] throws on validated rows: a promise-returning
    transport and a [done] called during the transport call give a promise
    rejected with what [nest] threw; a [done] called later leaves the
    exception uncaught and the promise pending; the direct-return branch
    throws it to the caller.  [postProcess] is not called. *)
Theorem hydration_failure (dbCall : DbCall) (text shape : value) (sqlAST : loc)
    (s : store Ast Ns) (v rows sample e : value) :
  validate E v = Ok rows ->
  slice_0_8 rows = Ok sample ->
  nest E rows shape = Throw e ->
  (db_length dbCall <> 2 ->
   without_callback dbCall text = RetThenable (Fulfils v) ->
   handleUserDbCall E dbCall text shape sqlAST s
   = (Ok (Rejected e), s,
      [EvDbCall text false; EvValidate v; EvDebug "RAW DATA";
       EvDebug (to_string (read rows "length") ++ " rows..."); EvNest rows shape])) /\
  (forall err,
      db_length dbCall = 2 ->
      with_callback dbCall text = CbDone Sync err v ->
      truthy err = false ->
      handleUserDbCall E dbCall text shape sqlAST s
      = (Ok (Rejected e), s,
         [EvDbCall text true; EvValidate v; EvDebug "RAW_DATA";
          EvDebug (to_string (read rows "length") ++ " rows..."); EvNest rows shape])) /\
  (forall err,
      db_length dbCall = 2 ->
      with_callback dbCall text = CbDone Async err v ->
      truthy err = false ->
      handleUserDbCall E dbCall text shape sqlAST s
      = (Ok Pending, s,
         [EvDbCall text true; EvValidate v; EvDebug "RAW_DATA";
          EvDebug (to_string (read rows "length") ++ " rows..."); EvNest rows shape;
          EvUncaught e])) /\
  (db_length dbCall <> 2 ->
   without_callback dbCall text = RetPlain v ->
   handleUserDbCall E dbCall text shape sqlAST s
   = (Throw e, s, [EvDbCall text false; EvValidate v; EvNest rows shape])).
Proof.
  intros Hval Hslice Hnest.
  assert (Hn : nullish rows = false) by (destruct rows; simpl in *; congruence).
  assert (Hnv : nullish v = false) by apply (validate_ok_not_nullish E _ _ Hval).
  split; [| split; [| split]].
  - intros Hlen Hret. apply Nat.eqb_neq in Hlen. run. rewrite Hlen, Hret.
    rewrite Hval, Hslice. unfold get_prop. rewrite Hn, Hnest. reflexivity.
  - intros err Hlen Hcb Herr. run. rewrite Hlen. simpl. rewrite Hcb, Herr.
    rewrite Hval, Hslice. unfold get_prop. rewrite Hn, Hnest. reflexivity.
  - intros err Hlen Hcb Herr. run. rewrite Hlen. simpl. rewrite Hcb, Herr.
    rewrite Hval, Hslice. unfold get_prop. rewrite Hn, Hnest. reflexivity.
  - intros Hlen Hret. apply Nat.eqb_neq in Hlen. run. rewrite Hlen, Hret.
    unfold get_prop. rewrite Hnv, Hval, Hnest. reflexivity.
Qed.


Lemma hydrate_returns (label : string) (v shape out : value) (sqlAST : loc)
    (s : store Ast Ns) :
  result_of (hydrate E label v shape sqlAST s) = Ok out ->
  exists rows nested,
    validate E v = Ok rows /\ nest E rows shape = Ok nested /\
    fst (postProcess E nested sqlAST s) = Ok out.
Proof.
  unfold hydrate, bind, tell, lift, call, debug, result_of.
  destruct (validate E v) as [rows | e]; simpl; [| discriminate].
  destruct (slice_0_8 rows) as [sample | e]; simpl; [| discriminate].
  destruct (get_prop rows "length") as [len | e]; simpl; [| discriminate].
  destruct (nest E rows shape) as [nested | e] eqn:Hnest; simpl; [| discriminate].
  destruct (postProcess E nested sqlAST s) as [r s1] eqn:Hp. simpl.
  intros ->. exists rows, nested. rewrite Hp. auto.
Qed.

(** X14. Whatever the promise of [handleUserDbCall] resolves to came from
    the transport through [validate] and [nest]: in callback mode and for a
    promise-returning transport it is what [postProcess] returned for the
    hydrated rows; for a direct return it is what [nest] returned. *)
Theorem resolved_value_provenance (dbCall : DbCall) (text shape : value) (sqlAST : loc)
    (s : store Ast Ns) (out : value) :
  result_of (handleUserDbCall E dbCall text shape sqlAST s) = Ok (Resolved out) ->
  (exists when err v rows nested,
      db_length dbCall = 2 /\
      with_callback dbCall text = CbDone when err v /\ truthy err = false /\
      validate E v = Ok rows /\ nest E rows shape = Ok nested /\
      fst (postProcess E nested sqlAST s) = Ok out) \/
  (exists v rows nested,
      db_length dbCall <> 2 /\
      without_callback dbCall text = RetThenable (Fulfils v) /\
      validate E v = Ok rows /\ nest E rows shape = Ok nested /\
      fst (postProcess E nested sqlAST s) = Ok out) \/
  (exists v rows,
      db_length dbCall <> 2 /\
      without_callback dbCall text = RetPlain v /\
      validate E v = Ok rows /\ nest E rows shape = Ok out).
Proof.
  assert (Hsettle : forall label v,
             result_of (settle (hydrate E label v shape sqlAST) s) = Ok (Resolved out) ->
             result_of (hydrate E label v shape sqlAST s) = Ok out).
  { intros label v. unfold settle, result_of.
    destruct (hydrate E label v shape sqlAST s) as [[[x | e] s1] t]; simpl; congruence. }
  assert (Hdetached : forall label v,
             result_of (detached (hydrate E label v shape sqlAST) s) = Ok (Resolved out) ->
             result_of (hydrate E label v shape sqlAST s) = Ok out).
  { intros label v. unfold detached, result_of.
    destruct (hydrate E label v shape sqlAST s) as [[[x | e] s1] t]; simpl; congruence. }
  unfold handleUserDbCall, bind, tell.
  destruct (Nat.eqb (db_length dbCall) 2) eqn:Hlen.
  - apply Nat.eqb_eq in Hlen.
    destruct (with_callback dbCall text) as [e | when err v |] eqn:Hcb;
      try (unfold result_of; simpl; intros H; discriminate H).
    destruct (truthy err) eqn:Herr; [unfold result_of; simpl; intros H; discriminate H |].
    intros H. left.
    assert (Hh : result_of (hydrate E "RAW_DATA" v shape sqlAST s) = Ok out).
    { destruct when.
      - apply Hsettle. unfold result_of in *.
        destruct (settle _ s) as [[r s1] t]. exact H.
      - apply Hdetached. unfold result_of in *.
        destruct (detached _ s) as [[r s1] t]. exact H. }
    destruct (hydrate_returns _ _ _ _ _ _ Hh) as (rows & nested & Hv & Hn & Hp).
    exists when, err, v, rows, nested. auto 10.
  - apply Nat.eqb_neq in Hlen.
    destruct (without_callback dbCall text) as [e | [v | e |] | v] eqn:Hret;
      try (unfold result_of; simpl; intros H; discriminate H).
    + intros H. right. left.
      assert (Hh : result_of (hydrate E "RAW DATA" v shape sqlAST s) = Ok out).
      { apply Hsettle. unfold result_of in *.
        destruct (settle _ s) as [[r s1] t]. exact H. }
      destruct (hydrate_returns _ _ _ _ _ _ Hh) as (rows & nested & Hv & Hn & Hp).
      exists v, rows, nested. auto 10.
    + unfold lift, call, ret, result_of.
      destruct (get_prop v "then") as [p | e]; simpl; [| intros H; discriminate H].
      destruct (validate E v) as [rows | e] eqn:Hv; simpl; [| intros H; discriminate H].
      destruct (nest E rows shape) as [nested | e] eqn:Hn; simpl;
        [| intros H; discriminate H].
      intros H. injection H as <-. right. right. exists v, rows. auto.
Qed.
End TransportFailures.

(** ** The further properties on concrete inputs *)

Ltac find_event := simpl; repeat (first [left; reflexivity | right]).

Example demo_bare_joinMonster :
  joinMonster Demo.env DemoInputs.bare_info VNull (Demo.returns VNull) None Demo.empty_store
  = (Ok (Resolved (VObject [])),
     update_ast 1%positive
       {| Demo.table := "query"; Demo.alias := "query"; Demo.columns := [];
          Demo.condition := None; Demo.arguments := VUndefined |} Demo.empty_store,
     [EvQueryASTToSqlAST; EvDebug "SQL_AST"; EvRequire "./stringifiers/standard";
      EvStringify "./stringifiers/standard" 1%positive; EvDebug "SQL";
      EvDefineShape 1%positive; EvDebug "SHAPE_DEFINITION"]).
Proof. vm_compute. reflexivity. Qed.

(** [getNode] for a node that is not there: the hydration yields [null],
    and the promise rejects. *)
Example demo_getNode_not_found :
  result_of (getNode Demo.env "User" Demo.info VNull (Some Demo.by_id)
               (Demo.promises (Fulfils (VArray [] [])))
               (Some (Demo.options_for (VStr "pg"))) Demo.empty_store)
  = Ok (Rejected (TypeError "Cannot create property __type__")).
Proof. vm_compute. reflexivity. Qed.

Lemma joinMonster_without_sql_witness :
  result_of (joinMonster Demo.env DemoInputs.bare_info VNull (Demo.returns VNull) None
               Demo.empty_store)
  = Ok (Resolved (VObject [])) /\
  absent is_db_call
    (trace_of (joinMonster Demo.env DemoInputs.bare_info VNull (Demo.returns VNull) None
                 Demo.empty_store)).
Proof.
  destruct (joinMonster_without_sql Demo.env DemoInputs.bare_info VNull (Demo.returns VNull)
              None Demo.empty_store
              (update_ast 1%positive
                 {| Demo.table := "query"; Demo.alias := "query"; Demo.columns := [];
                    Demo.condition := None; Demo.arguments := VUndefined |}
                 Demo.empty_store)
              (update_ast 1%positive
                 {| Demo.table := "query"; Demo.alias := "query"; Demo.columns := [];
                    Demo.condition := None; Demo.arguments := VUndefined |}
                 Demo.empty_store)
              1%positive {| sql := VStr ""; shapeDefinition := VObject [] |}
              [EvDebug "SQL_AST"; EvRequire "./stringifiers/standard";
               EvStringify "./stringifiers/standard" 1%positive; EvDebug "SQL";
               EvDefineShape 1%positive; EvDebug "SHAPE_DEFINITION"])
    as (Hrun & Hno & _).
  - vm_compute. reflexivity.
  - vm_compute. reflexivity.
  - reflexivity.
  - rewrite Hrun. split; [reflexivity | rewrite Hrun in Hno; exact Hno].
Defined.

Lemma getNode_always_queries_witness :
  In (EvDbCall (VStr "") false)
     (trace_of (getNode Demo.env "User" DemoInputs.bare_info VNull None (Demo.returns VNull)
                  None Demo.empty_store)) /\
  occurrences is_db_call
    (trace_of (getNode Demo.env "User" DemoInputs.bare_info VNull None (Demo.returns VNull)
                 None Demo.empty_store)) = 1.
Proof.
  split.
  - vm_compute. find_event.
  - apply (getNode_always_queries Demo.env). vm_compute. find_event.
Defined.

Lemma transport_is_called_at_most_once_witness :
  occurrences is_db_call (trace_of demo_run) <= 1.
Proof.
  apply (transport_is_called_at_most_once Demo.env "User" Demo.info VNull (Some Demo.by_id)
           (Demo.promises (Fulfils (VArray [Demo.user_row] [])))
           (Some (Demo.options_for (VStr "mysql"))) VNull VNull 1%positive
           Demo.empty_store).
Defined.

Lemma joinMonster_passes_compiled_output_witness :
  exists sqlAST s0 c,
    queryASTToSqlAST Demo.env Demo.info (Demo.options_for (VStr "mysql")) Demo.empty_store
    = (Ok sqlAST, s0) /\
    result_of (compileSqlAST Demo.env sqlAST VNull (Demo.options_for (VStr "mysql")) s0)
    = Ok c /\
    VStr "SELECT `a`.email, `a`.id FROM query `a`" = sql c /\
    truthy (VStr "SELECT `a`.email, `a`.id FROM query `a`") = true /\
    false = Nat.eqb (db_length (Demo.returns (VArray [Demo.user_row] []))) 2.
Proof.
  apply (joinMonster_passes_compiled_output Demo.env Demo.info VNull
           (Demo.returns (VArray [Demo.user_row] []))
           (Some (Demo.options_for (VStr "mysql"))) Demo.empty_store
           (EvDbCall (VStr "SELECT `a`.email, `a`.id FROM query `a`") false)).
  vm_compute. find_event.
Defined.

Lemma errors_before_transport_are_thrown_witness :
  exists e,
    result_of (getNode Demo.env "User" Demo.info VNull None (Demo.returns VNull)
                 (Some (Demo.options_for (VStr "oracle"))) Demo.empty_store) = Throw e.
Proof.
  apply (errors_before_transport_are_thrown Demo.env "User" Demo.info VNull None
           (Demo.returns VNull) (Some (Demo.options_for (VStr "oracle")))
           Demo.empty_store).
  vm_compute. reflexivity.
Defined.

Lemma getNode_attaches_type_witness :
  read (VObject [("id", VNum 7); ("email", VStr "a@b.c"); ("__type__", Demo.user_type)])
       "__type__"
  = schema_getType Demo.info "User".
Proof.
  destruct (getNode_attaches_type Demo.env "User" Demo.info VNull (Some Demo.by_id)
              (Demo.promises (Fulfils (VArray [Demo.user_row] [])))
              (Some (Demo.options_for (VStr "mysql"))) Demo.empty_store) as [H _].
  destruct (H (VObject [("id", VNum 7); ("email", VStr "a@b.c");
                        ("__type__", Demo.user_type)])) as (_ & Htype & _).
  - vm_compute. reflexivity.
  - exact Htype.
Defined.

Lemma getNode_unknown_type_witness :
  exists message,
    getNode Demo.env "Ghost" Demo.info VNull None (Demo.returns VNull) None Demo.empty_store
    = (Throw (TypeError message), Demo.empty_store, []).
Proof.
  apply (getNode_unknown_type Demo.env "Ghost" Demo.info VNull None (Demo.returns VNull)
           None Demo.empty_store).
  intros n. discriminate.
Defined.

Lemma getNode_field_nodes_witness :
  result_of (getNode Demo.env "User" DemoInputs.legacy_info VNull (Some Demo.by_id)
               (Demo.promises (Fulfils (VArray [Demo.user_row] [])))
               (Some (Demo.options_for (VStr "mysql"))) Demo.empty_store)
  = result_of demo_run /\
  result_of (getNode Demo.env "User" DemoInputs.no_fields_info VNull None
               (Demo.returns VNull) None Demo.empty_store)
  = Throw (TypeError "Cannot read property 0").
Proof.
  split.
  - destruct (getNode_field_nodes Demo.env "User" DemoInputs.legacy_info VNull
                (Some Demo.by_id) (Demo.promises (Fulfils (VArray [Demo.user_row] [])))
                (Some (Demo.options_for (VStr "mysql"))) Demo.empty_store)
      as (_ & H & _).
    rewrite (H eq_refl). reflexivity.
  - destruct (getNode_field_nodes Demo.env "User" DemoInputs.no_fields_info VNull None
                (Demo.returns VNull) None Demo.empty_store) as (_ & _ & H).
    rewrite (H eq_refl eq_refl "User" eq_refl). reflexivity.
Defined.

Lemma transport_failure_passes_through_witness :
  handleUserDbCall Demo.env (Demo.promises (Rejects Demo.connection_lost))
    (VStr "SELECT 1") (VObject []) 1%positive (Demo.user_store None)
  = (Ok (Rejected Demo.connection_lost), Demo.user_store None,
     [EvDbCall (VStr "SELECT 1") false]).
Proof.
  apply (transport_failure_passes_through Demo.env).
  - simpl. lia.
  - reflexivity.
Defined.

Lemma transport_throw_witness :
  handleUserDbCall Demo.env (DemoInputs.throws 2 Demo.connection_lost)
    (VStr "SELECT 1") (VObject []) 1%positive (Demo.user_store None)
  = (Ok (Rejected Demo.connection_lost), Demo.user_store None,
     [EvDbCall (VStr "SELECT 1") true]) /\
  handleUserDbCall Demo.env (DemoInputs.throws 1 Demo.connection_lost)
    (VStr "SELECT 1") (VObject []) 1%positive (Demo.user_store None)
  = (Throw Demo.connection_lost, Demo.user_store None, [EvDbCall (VStr "SELECT 1") false]).
Proof.
  split.
  - apply (transport_throw Demo.env); reflexivity.
  - apply (transport_throw Demo.env); [simpl; lia | reflexivity].
Defined.

Lemma hydration_failure_witness :
  handleUserDbCall StrictDemo.env (Demo.calls_back Async VNull (VArray [] []))
    (VStr "SELECT 1") (VObject []) 1%positive (Demo.user_store None)
  = (Ok Pending, Demo.user_store None,
     [EvDbCall (VStr "SELECT 1") true; EvValidate (VArray [] []); EvDebug "RAW_DATA";
      EvDebug "0 rows..."; EvNest (VArray [] []) (VObject []);
      EvUncaught StrictDemo.no_rows]).
Proof.
  apply (hydration_failure StrictDemo.env (Demo.calls_back Async VNull (VArray [] []))
           (VStr "SELECT 1") (VObject []) 1%positive (Demo.user_store None)
           (VArray [] []) (VArray [] []) (VArray [] []) StrictDemo.no_rows
           eq_refl eq_refl eq_refl) with (err := VNull); reflexivity.
Defined.


Lemma resolved_value_provenance_witness :
  (exists when err v rows nested,
      db_length (Demo.returns (VArray [Demo.user_row] [])) = 2 /\
      with_callback (Demo.returns (VArray [Demo.user_row] [])) (VStr "SELECT 1")
      = CbDone when err v /\ truthy err = false /\
      validate Demo.env v = Ok rows /\ nest Demo.env rows (VObject []) = Ok nested /\
      fst (postProcess Demo.env nested 1%positive (Demo.user_store None))
      = Ok Demo.user_row) \/
  (exists v rows nested,
      db_length (Demo.returns (VArray [Demo.user_row] [])) <> 2 /\
      without_callback (Demo.returns (VArray [Demo.user_row] [])) (VStr "SELECT 1")
      = RetThenable (Fulfils v) /\
      validate Demo.env v = Ok rows /\ nest Demo.env rows (VObject []) = Ok nested /\
      fst (postProcess Demo.env nested 1%positive (Demo.user_store None))
      = Ok Demo.user_row) \/
  (exists v rows,
      db_length (Demo.returns (VArray [Demo.user_row] [])) <> 2 /\
      without_callback (Demo.returns (VArray [Demo.user_row] [])) (VStr "SELECT 1")
      = RetPlain v /\
      validate Demo.env v = Ok rows /\ nest Demo.env rows (VObject []) = Ok Demo.user_row).
Proof.
  apply (resolved_value_provenance Demo.env (Demo.returns (VArray [Demo.user_row] []))
           (VStr "SELECT 1") (VObject []) 1%positive (Demo.user_store None) Demo.user_row).
  reflexivity.
Defined.

Lemma compile_call_discipline_witness :
  occurrences is_require
    (trace_of (compileSqlAST Demo.env 1%positive VNull (Demo.options_for (VStr "pg"))
                 (Demo.user_store None))) = 1.
Proof.
  apply (compile_call_discipline Demo.env 1%positive VNull (Demo.options_for (VStr "pg"))
           (Demo.user_store None)).
Defined.
